(** * CurrencyParser: the rate-synchronisation pipeline

    A shallow embedding of the Python sources

    - [app/ws/ws_handler.py]     (ConnectionManager: the broadcast registry)
    - [app/nats/nats_pub.py]     (NatsPublisher: the event-bus publisher)
    - [app/nats/nats_sub.py]     (NatsSubscriber: the replication handler)
    - [app/services/parser.py]   (parse_cbr_xml, the cached fetch, upsert_item)
    - [app/tasks/task_poller.py] (fetch_cbr, fetch_binance, upsert_item, Poller)

    Python [float] is IEEE-754 binary64 and is embedded as Rocq's primitive
    [float]; [int] is [Z]; [str] and [bytes] are [string]; a [dict] keyed by
    currency code is a [gmap string _] (no statement below depends on the
    order of its items); the set of live WebSockets is a [gset].  Effectful code runs in a small monad [M] that threads the
    process state ([World]), reads the behaviour of the outside world from an
    oracle ([Env]), may raise, and records what it does in a trace of
    [effect]s. *)

From Stdlib Require Import ZArith Floats Ascii.
From stdpp Require Import base gmap strings list fin_maps.

(** ** Python values *)

(** The outcome of a Python call: it returns a value or raises. *)
Inductive outcome (A : Type) : Type :=
| Returned (a : A)
| Raised (exc : string).
Arguments Returned {A} a.
Arguments Raised {A} exc.

(** The literal [1e-9]: the binary64 value nearest to it. *)
Definition EPSILON : float := 0x1.12e0be826d695p-30%float.

(** [abs(a - b) < 1e-9] as Python evaluates it on floats. *)
Definition rates_close (a b : float) : bool :=
  PrimFloat.ltb (PrimFloat.abs (PrimFloat.sub a b)) EPSILON.


(** Conversion of a Python [int] to [float] (round to nearest even); Python
    raises [OverflowError] where the rounded value would be infinite. *)
Definition float_of_int (z : Z) : outcome float :=
  let f := SF2Prim (binary_normalize prec emax z 0 false) in
  if is_infinity f then Raised "OverflowError" else Returned f.

(** [value / amount] for a float [value] and an int [amount]. *)
Definition float_div_int (value : float) (amount : Z) : outcome float :=
  match float_of_int amount with
  | Raised exc => Raised exc
  | Returned d =>
      if (amount =? 0)%Z then Raised "ZeroDivisionError"
      else Returned (PrimFloat.div value d)
  end.

(** ** Data model *)

(** A value of the rate maps the fetchers build:
    [{"rate": ..., "amount": ..., "platform": ...}].  [upsert_item] reads
    ["rate"] by subscript and the other two with [dict.get], so those two are
    optional here. *)
Record RateData : Type := mkRateData {
  d_rate : float;
  d_amount : option Z;
  d_platform : option string;
}.

(** [app/models/item_model.py]: one row of the items table.  [item_id] is
    [None] until the row is inserted. *)
Record ItemModel : Type := mkItemModel {
  item_id : option Z;
  currency : string;
  rate : float;
  amount : Z;
  platform : string;
  crypto_currency : bool;
  last_updated_time : Z;
}.

(** The items table as a session sees it: [currency] is unique, so rows are
    keyed by it; [next_id] is the next primary key the engine hands out. *)
Record Db : Type := mkDb {
  rows : gmap string ItemModel;
  next_id : Z;
}.

(** The ["item"] object of an event as it travels on the wire.  A received
    JSON object may lack any key, so every field is optional. *)
Record ItemPayload : Type := mkItemPayload {
  p_currency : option string;
  p_rate : option float;
  p_amount : option Z;
  p_platform : option string;
  p_crypto_currency : option bool;
}.

(** An event [{"type": ..., "item": {...}}].  [ev_item] is [None] when the
    key is missing or its value is not an object. *)
Record Event : Type := mkEvent {
  ev_type : option string;
  ev_item : option ItemPayload;
}.

(** What [json.loads] returns for a message.  [data.get] exists on a dict
    only: any other JSON value (a list, a number, a string, [null]) is
    [JNotObject].  [JObject] carries a dict whose ["item"], when it is a dict,
    holds under each column key it has a value of the type of that column;
    dicts with a [null] or ill-typed value under such a key are not
    represented. *)
Inductive Json : Type :=
| JNotObject
| JObject (data : Event).

(** A WebSocket connection is an opaque handle. *)
Abbreviation WebSocket := positive.

(** [ConnectionManager]: the live set and the [_has_clients] flag. *)
Record ConnectionManager : Type := mkConnectionManager {
  active : gset WebSocket;
  has_clients : bool;
}.

(** The NATS client object a publisher holds. *)
Record NatsClient : Type := mkNatsClient {
  is_connected : bool;
}.

(** [NatsPublisher]: [_client] is [None] before [connect] and after [close]. *)
Record NatsPublisher : Type := mkNatsPublisher {
  pub_client : option NatsClient;
}.

(** The state of one process. *)
Record World : Type := mkWorld {
  w_db : Db;
  w_manager : ConnectionManager;
  w_publisher : NatsPublisher;
  w_rates_cache : gmap string (gmap string RateData);
}.

(** ** The outside world *)

(** What an HTTP GET followed by [raise_for_status()] does: the request
    raises, or a response arrives whose status is a success or not. *)
Inductive HttpResult : Type :=
| HttpRaises (exc : string)
| HttpResponse (success : bool) (content : string).

(** The behaviour of everything outside the process during one call. *)
Record Env : Type := mkEnv {
  ws_send_ok : WebSocket → bool;
  nats_connect_ok : bool;
  nats_publish_ok : bool;
  nats_flush_ok : bool;
  utcnow : Z;
  http_cbr : string → HttpResult;
  http_binance : string → HttpResult;
}.

(** What the process does to the outside world, in order. *)
Inductive effect : Type :=
| EJsonableEncoder (message : Event)
| EWsSendJson (ws : WebSocket) (data : Event)
| ENatsConnect
| ENatsPublish (subject : string) (message : Event)
| ENatsFlush
| EDbCommit (code : string)
| EHttpGet (url : string)
| EPrint (msg : string).

(** ** The monad of effectful code *)

Definition M (A : Type) : Type := Env → World → outcome A * World * list effect.

Definition ret {A} (a : A) : M A := λ _ w, (Returned a, w, []).

Definition raise {A} (exc : string) : M A := λ _ w, (Raised exc, w, []).

Definition bind {A B} (m : M A) (k : A → M B) : M B := λ e w,
  match m e w with
  | (Returned a, w1, t1) =>
      match k a e w1 with
      | (r, w2, t2) => (r, w2, t1 ++ t2)
      end
  | (Raised exc, w1, t1) => (Raised exc, w1, t1)
  end.

Notation "x <- m ;; k" := (bind m (λ x, k))
  (at level 100, m at next level, right associativity).
Notation "m ;;; k" := (bind m (λ _, k))
  (at level 100, right associativity).

(** [try: body / except Exception as exc: handler exc]. *)
Definition try_except {A} (body : M A) (handler : string → M A) : M A := λ e w,
  match body e w with
  | (Returned a, w1, t1) => (Returned a, w1, t1)
  | (Raised exc, w1, t1) =>
      match handler exc e w1 with
      | (r, w2, t2) => (r, w2, t1 ++ t2)
      end
  end.

Definition tell (ev : effect) : M unit := λ _ w, (Returned tt, w, [ev]).

(** [print(..., flush=True)]; [msg] is the fixed part of the printed line. *)
Definition print (msg : string) : M unit := tell (EPrint msg).

Definition ask : M Env := λ e w, (Returned e, w, []).

Definition get : M World := λ _ w, (Returned w, w, []).

Definition put (w : World) : M unit := λ _ _, (Returned tt, w, []).

Definition set_manager (m : ConnectionManager) : M unit :=
  w <- get ;;
  put (mkWorld (w_db w) m (w_publisher w) (w_rates_cache w)).

Definition set_db (d : Db) : M unit :=
  w <- get ;;
  put (mkWorld d (w_manager w) (w_publisher w) (w_rates_cache w)).

Definition set_publisher (p : NatsPublisher) : M unit :=
  w <- get ;;
  put (mkWorld (w_db w) (w_manager w) p (w_rates_cache w)).

Definition set_rates_cache (c : gmap string (gmap string RateData)) : M unit :=
  w <- get ;;
  put (mkWorld (w_db w) (w_manager w) (w_publisher w) c).

(** [for x in xs: body x]. *)
Fixpoint for_each {A} (xs : list A) (body : A → M unit) : M unit :=
  match xs with
  | [] => ret tt
  | x :: rest => body x ;;; for_each rest body
  end.

(** ** [app/ws/ws_handler.py] *)

Module ws_handler.

(** [await ws.send_json(data)]: the attempt is recorded; it raises when the
    connection is dead. *)
Definition send_json (ws : WebSocket) (data : Event) : M unit :=
  e <- ask ;;
  tell (EWsSendJson ws data) ;;;
  if ws_send_ok e ws then ret tt else raise "WebSocketDisconnect".

(** [ConnectionManager.connect], for a connection whose [accept] succeeds. *)
Definition connect (ws : WebSocket) : M unit :=
  w <- get ;;
  set_manager (mkConnectionManager ({[ ws ]} ∪ active (w_manager w)) true) ;;;
  print "WebSocket подключен".

(** [ConnectionManager.disconnect]. *)
Definition disconnect (ws : WebSocket) : M unit :=
  w <- get ;;
  let act := active (w_manager w) ∖ {[ ws ]} in
  set_manager (mkConnectionManager act (has_clients (w_manager w))) ;;;
  print "WebSocket отключен" ;;;
  if decide (act = ∅)
  then set_manager (mkConnectionManager act false)
  else ret tt.

(** The first loop of [broadcast]: [for ws in list(self.active)], with the
    [try]/[except] that collects [bad_connections]. *)
Fixpoint send_pass (conns : list WebSocket) (data : Event)
    (bad_connections : list WebSocket) : M (list WebSocket) :=
  match conns with
  | [] => ret bad_connections
  | ws :: rest =>
      failed <- try_except (send_json ws data ;;; ret false) (λ _, ret true) ;;
      send_pass rest data
        (if failed : bool then bad_connections ++ [ws] else bad_connections)
  end.

(** [ConnectionManager.broadcast]. *)
Definition broadcast (message : Event) : M unit :=
  w <- get ;;
  if decide (active (w_manager w) = ∅) then ret tt
  else
    tell (EJsonableEncoder message) ;;;
    bad_connections <- send_pass (elements (active (w_manager w))) message [] ;;
    for_each bad_connections (λ ws,
      disconnect ws ;;;
      print "Удалён неработающий WebSocket").

End ws_handler.

(** ** The SQLAlchemy session, as far as the pipeline uses it *)

Module session.

(** [select(ItemModel).where(ItemModel.currency == code)] followed by
    [scalar_one_or_none()]. *)
Definition select_by_currency (code : string) : M (option ItemModel) :=
  w <- get ;;
  ret (rows (w_db w) !! code).

(** [db.add(item); await db.commit(); await db.refresh(item)] for a new
    object: the engine assigns the primary key.  This is the commit of a row
    the table accepts.  The engine rejects a row whose rate is NaN (stored as
    NULL in a column that is not nullable) with [IntegrityError], which no
    caller catches; such a commit is not represented: a statement that
    describes a write describes the write of a row the table accepts. *)
Definition add_commit_refresh (item : ItemModel) : M ItemModel :=
  w <- get ;;
  let stored :=
    mkItemModel (Some (next_id (w_db w))) (currency item) (rate item)
      (amount item) (platform item) (crypto_currency item)
      (last_updated_time item) in
  set_db (mkDb (<[currency item := stored]> (rows (w_db w)))
               (next_id (w_db w) + 1)%Z) ;;;
  tell (EDbCommit (currency item)) ;;;
  ret stored.

(** [await db.commit(); await db.refresh(item)] after attribute assignments
    on a persistent object: the row takes the object's state.  As for
    [add_commit_refresh], this is the commit of a row the table accepts.  The
    [onupdate] default of [last_updated_time] is applied by the engine when it
    issues an UPDATE and is not represented: the row keeps the time the object
    carries, which the sync cycle assigns itself before it commits. *)
Definition commit_refresh (item : ItemModel) : M ItemModel :=
  w <- get ;;
  set_db (mkDb (<[currency item := item]> (rows (w_db w)))
               (next_id (w_db w))) ;;;
  tell (EDbCommit (currency item)) ;;;
  ret item.

End session.

(** Attribute assignment on an [ItemModel] object. *)
Definition set_rate (item : ItemModel) (v : float) : ItemModel :=
  mkItemModel (item_id item) (currency item) v (amount item) (platform item)
    (crypto_currency item) (last_updated_time item).

Definition set_amount (item : ItemModel) (v : Z) : ItemModel :=
  mkItemModel (item_id item) (currency item) (rate item) v (platform item)
    (crypto_currency item) (last_updated_time item).

Definition set_platform (item : ItemModel) (v : string) : ItemModel :=
  mkItemModel (item_id item) (currency item) (rate item) (amount item) v
    (crypto_currency item) (last_updated_time item).

Definition set_crypto_currency (item : ItemModel) (v : bool) : ItemModel :=
  mkItemModel (item_id item) (currency item) (rate item) (amount item)
    (platform item) v (last_updated_time item).

Definition set_last_updated_time (item : ItemModel) (v : Z) : ItemModel :=
  mkItemModel (item_id item) (currency item) (rate item) (amount item)
    (platform item) (crypto_currency item) v.

(** The event both emitters build from an item:
    [{"type": event_type, "item": {"currency": ..., "rate": ..., ...}}]. *)
Definition event_of_item (event_type : string) (item : ItemModel) : Event :=
  mkEvent (Some event_type)
    (Some (mkItemPayload (Some (currency item)) (Some (rate item))
             (Some (amount item)) (Some (platform item))
             (Some (crypto_currency item)))).

(** ** [app/nats/nats_pub.py] *)

Module nats_pub.

(** [self._client and self._client.is_connected]. *)
Definition client_connected (p : NatsPublisher) : bool :=
  match pub_client p with
  | Some c => is_connected c
  | None => false
  end.

(** [NatsPublisher.connect]. *)
Definition connect : M unit :=
  w <- get ;;
  if client_connected (w_publisher w) then ret tt
  else
    e <- ask ;;
    tell ENatsConnect ;;;
    if nats_connect_ok e
    then
      set_publisher (mkNatsPublisher (Some (mkNatsClient true))) ;;;
      print "NATS publisher подключен"
    else raise "NoServersError".

(** [await self._client.publish(subject, payload)]. *)
Definition client_publish (subject : string) (message : Event) : M unit :=
  e <- ask ;;
  tell (ENatsPublish subject message) ;;;
  if nats_publish_ok e then ret tt else raise "ConnectionClosedError".

(** [await self._client.flush(timeout=1)]. *)
Definition client_flush : M unit :=
  e <- ask ;;
  tell ENatsFlush ;;;
  if nats_flush_ok e then ret tt else raise "TimeoutError".

(** [NatsPublisher.publish]. *)
Definition publish (subject : string) (message : Event) : M unit :=
  w <- get ;;
  (if client_connected (w_publisher w) then ret tt else connect) ;;;
  w <- get ;;
  match pub_client (w_publisher w) with
  | None => raise "AssertionError"
  | Some _ =>
      try_except
        (client_publish subject message ;;;
         client_flush)
        (λ exc,
          print "Ошибка публикации в NATS" ;;;
          raise exc)
  end.

(** [NatsPublisher.close].  [drain_ok] and [close_ok] tell whether the
    client's [drain] and [close] succeed; each failure is caught and printed. *)
Definition close (drain_ok close_ok : bool) : M unit :=
  w <- get ;;
  match pub_client (w_publisher w) with
  | None => ret tt
  | Some client =>
      try_except
        (if is_connected client
         then if drain_ok then ret tt else raise "TimeoutError"
         else ret tt)
        (λ exc, print "Ошибка drain NATS") ;;;
      try_except
        (if close_ok then ret tt else raise "ConnectionClosedError")
        (λ exc, print "Ошибка close NATS") ;;;
      set_publisher (mkNatsPublisher None) ;;;
      print "NATS publisher отключен"
  end.

End nats_pub.

(** ** [xml.etree.ElementTree], as far as [parse_cbr_xml] uses it *)

#[warnings="-register-all"]
Inductive Element : Type :=
| mkElement (tag : string) (text : option string) (children : list Element).

Definition tag (e : Element) : string :=
  match e with mkElement t _ _ => t end.

Definition text (e : Element) : option string :=
  match e with mkElement _ t _ => t end.

Definition children (e : Element) : list Element :=
  match e with mkElement _ _ c => c end.

(** [elem.find(name)]: the first direct child with that tag. *)
Definition find (name : string) (e : Element) : option Element :=
  List.find (λ c, bool_decide (tag c = name)) (children e).

(** All descendants in document order. *)
Fixpoint descendants (e : Element) : list Element :=
  match e with
  | mkElement _ _ cs =>
      (fix go (l : list Element) : list Element :=
         match l with
         | [] => []
         | c :: rest => c :: descendants c ++ go rest
         end) cs
  end.

(** [root.findall(".//name")]: all descendants with that tag. *)
Definition findall_descendants (name : string) (root : Element) : list Element :=
  List.filter (λ c, bool_decide (tag c = name)) (descendants root).

(** [bool(elem)]: an element is true iff it has children ([len(elem) != 0]). *)
Definition element_truth (e : Element) : bool :=
  match children e with
  | [] => false
  | _ :: _ => true
  end.

(** [a or b] on the results of two [find] calls. *)
Definition py_or (a b : option Element) : option Element :=
  match a with
  | Some e => if element_truth e then Some e else b
  | None => b
  end.

(** ** [str] methods *)

(** [c.isspace()] for an ASCII character. *)
Definition py_isspace (c : ascii) : bool :=
  let n := nat_of_ascii c in
  ((9 <=? n) && (n <=? 13)) || ((28 <=? n) && (n <=? 32)).

Fixpoint lstrip (s : string) : string :=
  match s with
  | EmptyString => EmptyString
  | String c rest => if py_isspace c then lstrip rest else s
  end.

(** [s.strip()]. *)
Definition strip (s : string) : string :=
  String.rev (lstrip (String.rev (lstrip s))).

(** [s.replace(",", ".")]. *)
Fixpoint replace_comma (s : string) : string :=
  match s with
  | EmptyString => EmptyString
  | String c rest =>
      String (if Ascii.eqb c "," then "."%char else c) (replace_comma rest)
  end.

(** ** Python [dict] operations *)

(** [d.update(other)], and [{**d, **other}] (a copy of [d] updated with
    [other]): every item of [other] is stored into [d]. *)
Definition dict_update {V} (d other : gmap string V) : gmap string V :=
  map_fold (λ k v acc, <[k := v]> acc) d other.

(** A pure computation run inside [M]. *)
Definition lift {A} (r : outcome A) : M A :=
  match r with
  | Returned a => ret a
  | Raised exc => raise exc
  end.

(** An HTTP GET and [resp.raise_for_status()]; returns [resp.content]. *)
Definition http_get (oracle : Env → string → HttpResult) (url : string)
    : M string :=
  e <- ask ;;
  tell (EHttpGet url) ;;;
  match oracle e url with
  | HttpRaises exc => raise exc
  | HttpResponse false _ => raise "HTTPStatusError"
  | HttpResponse true content => ret content
  end.

(** [datetime.date]. *)
Record date : Type := mkdate {
  year : Z;
  month : Z;
  day : Z;
}.

Definition digit (n : Z) : ascii :=
  ascii_of_nat (48 + Z.to_nat (n mod 10)).

Definition two_digits (n : Z) : string :=
  String (digit (n / 10)) (String (digit n) EmptyString).

Definition four_digits (n : Z) : string :=
  String (digit (n / 1000)) (String (digit (n / 100)) (two_digits n)).

(** ** [app/services/parser.py] *)

Module parser.

Section WithConfig.

(** Library functions: [ET.fromstring] ([None] where it raises [ParseError]),
    [float(s)] and [int(s)] on a string ([None] where they raise
    [ValueError]), and [resp.json()["price"]] ([None] where it raises). *)
Variable ET_fromstring : string → option Element.
Variable py_float : string → option float.
Variable py_int : string → option Z.
Variable json_price : string → option string.

(** [app/config.py]. *)
Variable CBR_URL_format : string → string.
Variable BINANCE_URL : string.
Variable CURRENCY : list string.
Variable CBR_PLATFORM : string.
Variable CRYPTO_CODES : list string.
Variable CRYPTO_PLATFORM : string.

(** [dt.strftime("%d/%m/%Y")], for a year of four digits. *)
Definition format_cbr_date (dt : date) : string :=
  two_digits (day dt) +:+ "/" +:+ two_digits (month dt) +:+ "/" +:+
  four_digits (year dt).

(** The [try] block of one entry of [parse_cbr_xml]; [None] where an
    exception is caught ([value_node] is [None] or has no text, [float] or
    [int] reject the text, [amount_node] has no text). *)
Definition read_value_amount (value_node amount_node : option Element)
    : option (float * Z) :=
  vn ← value_node;
  t ← text vn;
  value ← py_float (replace_comma t);
  match amount_node with
  | None => Some (value, 1%Z)
  | Some an =>
      t ← text an;
      amount ← py_int t;
      Some (value, amount)
  end.

(** The body of the loop of [parse_cbr_xml] for one [Valute] element. *)
Definition parse_valute (allowed_codes : list string)
    (result : gmap string RateData) (valute : Element)
    : outcome (gmap string RateData) :=
  match find "CharCode" valute with
  | None => Returned result
  | Some code_node =>
      match text code_node with
      | None => Returned result
      | Some EmptyString => Returned result
      | Some code_text =>
          let currency := strip code_text in
          if bool_decide (currency ∈ allowed_codes)
          then
            let value_node :=
              py_or (find "Value" valute) (find "VunitRate" valute) in
            let amount_node := find "amount" valute in
            match read_value_amount value_node amount_node with
            | None => Returned result
            | Some (value, amount) =>
                match float_div_int value amount with
                | Raised exc => Raised exc
                | Returned r =>
                    Returned
                      (<[currency :=
                           mkRateData r (Some amount) (Some CBR_PLATFORM)]>
                         result)
                end
            end
          else Returned result
      end
  end.

Fixpoint parse_valutes (allowed_codes : list string) (valutes : list Element)
    (result : gmap string RateData) : outcome (gmap string RateData) :=
  match valutes with
  | [] => Returned result
  | valute :: rest =>
      match parse_valute allowed_codes result valute with
      | Raised exc => Raised exc
      | Returned result' => parse_valutes allowed_codes rest result'
      end
  end.

(** [parse_cbr_xml]. *)
Definition parse_cbr_xml (xml : string) (allowed_codes : list string)
    : outcome (gmap string RateData) :=
  match ET_fromstring xml with
  | None => Returned ∅
  | Some root =>
      parse_valutes allowed_codes (findall_descendants "Valute" root) ∅
  end.

Definition cache_store (date_key : string) (rates : gmap string RateData)
    : M unit :=
  w <- get ;;
  set_rates_cache (<[date_key := rates]> (w_rates_cache w)).

(** [fetch_cbr_rates_sync].  The dict it returns is the object it stores in
    [_rates_cache]; no caller mutates it. *)
Definition fetch_cbr_rates_sync (dt : date) : M (gmap string RateData) :=
  let date_key := format_cbr_date dt in
  w <- get ;;
  match w_rates_cache w !! date_key with
  | Some cached => ret cached
  | None =>
      let url := CBR_URL_format date_key in
      resp <- try_except
        (content <- http_get http_cbr url ;; ret (Some content))
        (λ exc, print "Ошибка запроса ЦБ" ;;; ret None) ;;
      match resp with
      | None =>
          let fallback : gmap string RateData :=
            {[ "RUB" := mkRateData 80.0 (Some 1%Z) (Some CBR_PLATFORM) ]} in
          cache_store date_key fallback ;;;
          ret fallback
      | Some content =>
          parsed <- lift (parse_cbr_xml content CURRENCY) ;;
          let rates :=
            dict_update
              {[ "RUB" := mkRateData 1.0 (Some 1%Z) (Some CBR_PLATFORM) ]}
              parsed in
          cache_store date_key rates ;;;
          ret rates
      end
  end.

(** [CRYPTO_PLATFORM or "binance"]. *)
Definition crypto_platform : string :=
  if decide (CRYPTO_PLATFORM = "") then "binance" else CRYPTO_PLATFORM.

(** [float(resp.json()["price"])]. *)
Definition price_of (content : string) : M float :=
  match json_price content with
  | None => raise "KeyError"
  | Some s =>
      match py_float s with
      | None => raise "ValueError"
      | Some price => ret price
      end
  end.

(** [fetch_crypto_rates_sync]: the loop over [symbols]. *)
Fixpoint fetch_crypto_rates_sync (symbols : list string) (usd_rub_rate : float)
    (result : gmap string RateData) : M (gmap string RateData) :=
  match symbols with
  | [] => ret result
  | symbol :: rest =>
      let pair := symbol +:+ "USDT" in
      got <- try_except
        (content <- http_get http_binance
                      (BINANCE_URL +:+ "?symbol=" +:+ pair) ;;
         price_usdt <- price_of content ;;
         ret (Some price_usdt))
        (λ exc, print "Ошибка Binance" ;;; ret None) ;;
      match got with
      | None => fetch_crypto_rates_sync rest usd_rub_rate result
      | Some price_usdt =>
          fetch_crypto_rates_sync rest usd_rub_rate
            (<[symbol :=
                 mkRateData (PrimFloat.mul price_usdt usd_rub_rate)
                   (Some 1%Z) (Some crypto_platform)]> result)
      end
  end.

(** [broadcast_event]. *)
Definition broadcast_event (event_type : string) (item : ItemModel) : M unit :=
  try_except
    (ws_handler.broadcast (event_of_item event_type item))
    (λ _, print "WS broadcast failed").

(** [upsert_item]. *)
Definition upsert_item (currency : string) (data : RateData) : M unit :=
  item <- session.select_by_currency currency ;;
  let crypto_currency := bool_decide (currency ∈ CRYPTO_CODES) in
  match item with
  | None =>
      e <- ask ;;
      item <- session.add_commit_refresh
        (mkItemModel None currency (d_rate data)
           (default 1%Z (d_amount data)) (default "" (d_platform data))
           crypto_currency (utcnow e)) ;;
      broadcast_event "created" item
  | Some item =>
      if rates_close (rate item) (d_rate data) then ret tt
      else
        e <- ask ;;
        let item := set_rate item (d_rate data) in
        let item := set_amount item (default (amount item) (d_amount data)) in
        let item :=
          set_platform item (default (platform item) (d_platform data)) in
        let item := set_crypto_currency item crypto_currency in
        let item := set_last_updated_time item (utcnow e) in
        item <- session.commit_refresh item ;;
        broadcast_event "updated" item
  end.

(** [rates.get("USD", {}).get("rate", 80.0)]. *)
Definition usd_rate_of (rates : gmap string RateData) : float :=
  match rates !! "USD" with
  | Some data => d_rate data
  | None => 80.0%float
  end.

(** [{**cbr_rates, **crypto_rates}]. *)
Definition all_rates (cbr_rates crypto_rates : gmap string RateData)
    : gmap string RateData :=
  dict_update cbr_rates crypto_rates.

(** One turn of the [while True] loop of [poll_loop], up to the sleep; the
    handler of [except Exception] included. *)
Definition poll_once (today : date) : M unit :=
  try_except
    (cbr_rates <- fetch_cbr_rates_sync today ;;
     let usd_rate := usd_rate_of cbr_rates in
     crypto_rates <- fetch_crypto_rates_sync CRYPTO_CODES usd_rate ∅ ;;
     for_each (map_to_list (all_rates cbr_rates crypto_rates))
       (λ kv, upsert_item kv.1 kv.2))
    (λ exc, print "Ошибка poll_loop").

End WithConfig.

End parser.

(** ** [app/tasks/task_poller.py] *)

Module task_poller.

Section WithConfig.

Variable ET_fromstring : string → option Element.
Variable py_float : string → option float.
Variable py_int : string → option Z.
Variable json_price : string → option string.

Variable CBR_URL : string.
Variable BINANCE_URL : string.
Variable CURRENCY : list string.
Variable CBR_PLATFORM : string.
Variable CRYPTO_CODES : list string.
Variable CRYPTO_PLATFORM : string.

(** [fetch_cbr]. *)
Definition fetch_cbr (wanted : list string) : M (gmap string RateData) :=
  resp <- try_except
    (content <- http_get http_cbr CBR_URL ;; ret (Some content))
    (λ exc, print "Ошибка ЦБ" ;;; ret None) ;;
  match resp with
  | None =>
      ret {[ "RUB" := mkRateData 1.0 (Some 1%Z) (Some CBR_PLATFORM) ]}
  | Some content =>
      parsed <- lift (parser.parse_cbr_xml ET_fromstring py_float py_int
                        CBR_PLATFORM content wanted) ;;
      ret (dict_update
             {[ "RUB" := mkRateData 1.0 (Some 1%Z) (Some CBR_PLATFORM) ]}
             parsed)
  end.

(** [CRYPTO_PLATFORM or "Binance"]. *)
Definition crypto_platform : string :=
  if decide (CRYPTO_PLATFORM = "") then "Binance" else CRYPTO_PLATFORM.

(** [float(resp.json()["price"])]. *)
Definition price_of (content : string) : M float :=
  match json_price content with
  | None => raise "KeyError"
  | Some s =>
      match py_float s with
      | None => raise "ValueError"
      | Some price => ret price
      end
  end.

(** [fetch_binance]: the loop over [symbols]. *)
Fixpoint fetch_binance (symbols : list string) (usd_rub : float)
    (result : gmap string RateData) : M (gmap string RateData) :=
  match symbols with
  | [] => ret result
  | sym :: rest =>
      let pair := sym +:+ "USDT" in
      got <- try_except
        (content <- http_get http_binance
                      (BINANCE_URL +:+ "?symbol=" +:+ pair) ;;
         price <- price_of content ;;
         ret (Some price))
        (λ exc, print "Binance" ;;; ret None) ;;
      match got with
      | None => fetch_binance rest usd_rub result
      | Some price =>
          fetch_binance rest usd_rub
            (<[sym :=
                 mkRateData (PrimFloat.mul price usd_rub) (Some 1%Z)
                   (Some crypto_platform)]> result)
      end
  end.

(** [emit_event]. *)
Definition emit_event (event_type : string) (item : ItemModel) : M unit :=
  let payload := event_of_item event_type item in
  try_except (ws_handler.broadcast payload)
    (λ _, print "WS broadcast failed") ;;;
  try_except (nats_pub.publish "items.updates" payload)
    (λ _, print "NATS publish failed").

(** [upsert_item]. *)
Definition upsert_item (currency : string) (data : RateData) : M unit :=
  item <- session.select_by_currency currency ;;
  let crypto_currency := bool_decide (currency ∈ CRYPTO_CODES) in
  match item with
  | None =>
      e <- ask ;;
      item <- session.add_commit_refresh
        (mkItemModel None currency (d_rate data)
           (default 1%Z (d_amount data)) (default "" (d_platform data))
           crypto_currency (utcnow e)) ;;
      emit_event "created" item
  | Some item =>
      if rates_close (rate item) (d_rate data) then ret tt
      else
        e <- ask ;;
        let item := set_rate item (d_rate data) in
        let item := set_amount item (default (amount item) (d_amount data)) in
        let item :=
          set_platform item (default (platform item) (d_platform data)) in
        let item := set_crypto_currency item crypto_currency in
        let item := set_last_updated_time item (utcnow e) in
        item <- session.commit_refresh item ;;
        emit_event "updated" item
  end.

(** [rates.get("USD", {}).get("rate", 80.0)]. *)
Definition usd_of (rates : gmap string RateData) : float :=
  match rates !! "USD" with
  | Some data => d_rate data
  | None => 80.0%float
  end.

(** [{**rates, **crypto}]. *)
Definition combined (rates crypto : gmap string RateData)
    : gmap string RateData :=
  dict_update rates crypto.

(** [Poller.run_once]. *)
Definition run_once : M unit :=
  rates <- fetch_cbr CURRENCY ;;
  let usd := usd_of rates in
  crypto <- fetch_binance CRYPTO_CODES usd ∅ ;;
  for_each (map_to_list (combined rates crypto))
    (λ kv, upsert_item kv.1 kv.2).

End WithConfig.

End task_poller.

(** ** [app/nats/nats_sub.py] *)

Module nats_sub.

Section WithJson.

(** [json.loads(msg.data.decode("utf-8"))]: [None] where it raises. *)
Variable json_loads : string → option Json.

(** [NatsSubscriber._upsert_item].  The update branch assigns the four
    fields only; the [onupdate] default of [last_updated_time] belongs to the
    storage engine and is left out. *)
Definition _upsert_item (item : ItemPayload) : M unit :=
  match p_currency item with
  | None => raise "KeyError"
  | Some code =>
      model <- session.select_by_currency code ;;
      match model with
      | None =>
          e <- ask ;;
          model <- session.add_commit_refresh
            (mkItemModel None code (default 0%float (p_rate item))
               (default 1%Z (p_amount item)) (default "" (p_platform item))
               (default false (p_crypto_currency item)) (utcnow e)) ;;
          print "Item created from NATS"
      | Some model =>
          let model := set_rate model (default (rate model) (p_rate item)) in
          let model :=
            set_amount model (default (amount model) (p_amount item)) in
          let model :=
            set_platform model (default (platform model) (p_platform item)) in
          let model :=
            set_crypto_currency model
              (default (crypto_currency model) (p_crypto_currency item)) in
          model <- session.commit_refresh model ;;
          print "Item updated from NATS"
      end
  end.

(** [not currency] for the value of [item_data.get("currency")]. *)
Definition falsy (currency : option string) : bool :=
  match currency with
  | None => true
  | Some EmptyString => true
  | Some _ => false
  end.

(** [NatsSubscriber._on_message]; [msg_data] is [msg.data].  Only the
    decoding sits in a [try]: [data.get("item")] on a value that is not a
    dict raises [AttributeError] out of the handler. *)
Definition _on_message (msg_data : string) : M unit :=
  match json_loads msg_data with
  | None => print "Ошибка парсинга NATS сообщения"
  | Some JNotObject => raise "AttributeError"
  | Some (JObject data) =>
      match ev_item data with
      | None => ret tt
      | Some item_data =>
          if falsy (p_currency item_data) then ret tt
          else
            _upsert_item item_data ;;;
            try_except (ws_handler.broadcast data)
              (λ exc, print "WS broadcast error")
      end
  end.

End WithJson.

End nats_sub.

(** * Vocabulary of the specification

    Worlds after an update, the traces the operations leave, and the
    sample inputs the statements below are evaluated at. *)

(** The world with its connection manager replaced. *)
Definition with_manager (w : World) (m : ConnectionManager) : World :=
  mkWorld (w_db w) m (w_publisher w) (w_rates_cache w).

(** What [ConnectionManager.disconnect] does to the manager. *)
Definition manager_discard (mgr : ConnectionManager) (ws : WebSocket) : ConnectionManager :=
  let act := active mgr ∖ {[ ws ]} in
  mkConnectionManager act (if decide (act = ∅) then false else has_clients mgr).

(** The connections of a pass whose [send_json] raises. *)
Definition failed_sends (e : Env) (conns : list WebSocket) : list WebSocket :=
  filter (λ ws, ws_send_ok e ws = false) conns.

(** What unregistering the dead connections prints, two lines each. *)
Definition removal_log (bad : list WebSocket) : list effect :=
  flat_map (λ _, [EPrint "WebSocket отключен"; EPrint "Удалён неработающий WebSocket"]) bad.

(** One [send_json] attempt per connection, in order. *)
Definition fan_out (conns : list WebSocket) (data : Event) : list effect :=
  map (λ ws, EWsSendJson ws data) conns.

(** The connections a trace attempts a delivery to. *)
Fixpoint recipients (tr : list effect) : list WebSocket :=
  match tr with
  | [] => []
  | EWsSendJson ws _ :: rest => ws :: recipients rest
  | _ :: rest => recipients rest
  end.

(** The item after the assignments of the update branch of [upsert_item]. *)
Definition updated_item (CRYPTO_CODES : list string) (code : string)
    (data : RateData) (now : Z) (item : ItemModel) : ItemModel :=
  mkItemModel (item_id item) (currency item) (d_rate data)
    (default (amount item) (d_amount data))
    (default (platform item) (d_platform data))
    (bool_decide (code ∈ CRYPTO_CODES)) now.

(** The world with its publisher replaced. *)
Definition with_publisher (w : World) (p : NatsPublisher) : World :=
  mkWorld (w_db w) (w_manager w) p (w_rates_cache w).

(** The line [NatsPublisher.publish] prints when the client fails. *)
Definition publish_log : effect := EPrint "Ошибка публикации в NATS".

(** A publisher right after a successful [connect]. *)
Definition connected_publisher : NatsPublisher :=
  mkNatsPublisher (Some (mkNatsClient true)).

(** The attempt on an open connection: what [client.publish] and
    [client.flush] leave in the trace, and how the attempt ends. *)
Definition send_attempt (subject : string) (message : Event) (e : Env)
    : outcome unit * list effect :=
  if nats_publish_ok e
  then
    if nats_flush_ok e
    then (Returned tt, [ENatsPublish subject message; ENatsFlush])
    else (Raised "TimeoutError",
          [ENatsPublish subject message; ENatsFlush; publish_log])
  else (Raised "ConnectionClosedError",
        [ENatsPublish subject message; publish_log]).

(** A fixed-income entry for a code. *)
Definition sample_cbr_usd : RateData :=
  mkRateData 90.0 (Some 1%Z) (Some "CBR").

(** A crypto entry for the same code. *)
Definition sample_crypto_usd : RateData :=
  mkRateData 91.5 (Some 1%Z) (Some "Binance").

(** The world with its items table replaced. *)
Definition with_db (w : World) (d : Db) : World :=
  mkWorld d (w_manager w) (w_publisher w) (w_rates_cache w).

(** The table after the commit of an item. *)
Definition store_row (d : Db) (item : ItemModel) : Db :=
  mkDb (<[currency item := item]> (rows d)) (next_id d).

(** The row after the assignments of the update branch of
    [NatsSubscriber._upsert_item]. *)
Definition replicated_item (item : ItemPayload) (model : ItemModel) : ItemModel :=
  mkItemModel (item_id model) (currency model)
    (default (rate model) (p_rate item))
    (default (amount model) (p_amount item))
    (default (platform model) (p_platform item))
    (default (crypto_currency model) (p_crypto_currency item))
    (last_updated_time model).

(** The row [NatsSubscriber._upsert_item] inserts for an unseen code. *)
Definition created_from_payload (code : string) (item : ItemPayload)
    (new_id now : Z) : ItemModel :=
  mkItemModel (Some new_id) code (default 0%float (p_rate item))
    (default 1%Z (p_amount item)) (default "" (p_platform item))
    (default false (p_crypto_currency item)) now.

(** The row [upsert_item] inserts for an unseen code. *)
Definition created_item (CRYPTO_CODES : list string) (code : string)
    (data : RateData) (new_id now : Z) : ItemModel :=
  mkItemModel (Some new_id) code (d_rate data) (default 1%Z (d_amount data))
    (default "" (d_platform data)) (bool_decide (code ∈ CRYPTO_CODES)) now.

(** Every row is stored under its own [currency]. *)
Definition rows_keyed (d : Db) : Prop :=
  ∀ code item, rows d !! code = Some item → currency item = code.

(** The effects that reach the event bus. *)
Definition bus_effect (ev : effect) : bool :=
  match ev with
  | ENatsConnect | ENatsPublish _ _ | ENatsFlush => true
  | _ => false
  end.

(** The effects of the replication handler: storage, push subscribers, log. *)
Definition replication_effect (ev : effect) : bool :=
  match ev with
  | EDbCommit _ | EJsonableEncoder _ | EWsSendJson _ _ | EPrint _ => true
  | _ => false
  end.

(** The events a trace hands to the push subscribers and to the bus. *)
Fixpoint emitted_events (tr : list effect) : list Event :=
  match tr with
  | [] => []
  | EJsonableEncoder m :: rest => m :: emitted_events rest
  | EWsSendJson _ m :: rest => m :: emitted_events rest
  | ENatsPublish _ m :: rest => m :: emitted_events rest
  | _ :: rest => emitted_events rest
  end.

(** The world with [_rates_cache] replaced. *)
Definition with_rates_cache (w : World)
    (c : gmap string (gmap string RateData)) : World :=
  mkWorld (w_db w) (w_manager w) (w_publisher w) c.

(** The request raised, or the status is not a success. *)
Definition http_failed (r : HttpResult) : bool :=
  match r with
  | HttpRaises _ => true
  | HttpResponse success _ => negb success
  end.

(** A rate map whose only entry is the base unit at the given rate. *)
Definition rub_only (r : float) (CBR_PLATFORM : string) : gmap string RateData :=
  {[ "RUB" := mkRateData r (Some 1%Z) (Some CBR_PLATFORM) ]}.

(** An element with text and no children. *)
Definition leaf (name value : string) : Element :=
  mkElement name (Some value) [].

(** A feed document. *)
Definition val_curs (entries : list Element) : Element :=
  mkElement "ValCurs" None entries.

(** One entry of the feed. *)
Definition valute_of (fields : list Element) : Element :=
  mkElement "Valute" None fields.

(** A feed whose entry has a value node under the first accepted tag only. *)
Definition xml_value_only : string :=
  "<ValCurs><Valute><CharCode>USD</CharCode><Value>90,5</Value></Valute></ValCurs>".

(** A feed whose entry has both value nodes, with different texts. *)
Definition xml_both_values : string :=
  "<ValCurs><Valute><CharCode>USD</CharCode><Value>90,5</Value><VunitRate>45,25</VunitRate></Valute></ValCurs>".

(** A feed whose entry has a unit amount of zero. *)
Definition xml_zero_amount : string :=
  "<ValCurs><Valute><CharCode>USD</CharCode><Value>90,5</Value><VunitRate>45,25</VunitRate><amount>0</amount></Valute></ValCurs>".

(** [ET.fromstring] on the three sample feeds. *)
Definition sample_fromstring (xml : string) : option Element :=
  if decide (xml = xml_value_only)
  then Some (val_curs [valute_of [leaf "CharCode" "USD"; leaf "Value" "90,5"]])
  else if decide (xml = xml_both_values)
  then Some (val_curs [valute_of [leaf "CharCode" "USD"; leaf "Value" "90,5";
                                  leaf "VunitRate" "45,25"]])
  else if decide (xml = xml_zero_amount)
  then Some (val_curs [valute_of [leaf "CharCode" "USD"; leaf "Value" "90,5";
                                  leaf "VunitRate" "45,25"; leaf "amount" "0"]])
  else None.

(** [float] on the texts of the sample feeds. *)
Definition sample_float (s : string) : option float :=
  if decide (s = "90.5") then Some 90.5%float
  else if decide (s = "45.25") then Some 45.25%float
  else None.

(** [int] on the texts of the sample feeds. *)
Definition sample_int (s : string) : option Z :=
  if decide (s = "0") then Some 0%Z
  else if decide (s = "1") then Some 1%Z
  else None.

(** An outside world where the bus works, every HTTP request fails and
    connection 2 is dead. *)
Definition sample_env : Env :=
  mkEnv (λ ws, negb (Pos.eqb ws 2)) true true true 200%Z
    (λ _, HttpRaises "ConnectError") (λ _, HttpRaises "ConnectError").

(** A stored item for USD at the given rate. *)
Definition sample_item (r : float) : ItemModel :=
  mkItemModel (Some 1%Z) "USD" r 1%Z "CBR" false 100%Z.

(** A process with that item, two push subscribers and an open bus
    connection. *)
Definition sample_world (r : float) : World :=
  mkWorld (mkDb {[ "USD" := sample_item r ]} 2%Z)
    (mkConnectionManager {[ 1%positive; 2%positive ]} true)
    (mkNatsPublisher (Some (mkNatsClient true))) ∅.

(** A received item for USD. *)
Definition sample_payload (r : float) (n : Z) (crypto : bool) : ItemPayload :=
  mkItemPayload (Some "USD") (Some r) (Some n) (Some "CBR") (Some crypto).

(** An outside world where the bus client fails to publish. *)
Definition env_bus_down : Env :=
  mkEnv (λ _, true) true false true 200%Z
    (λ _, HttpRaises "ConnectError") (λ _, HttpRaises "ConnectError").

(** A feed URL template. *)
Definition sample_url_format (date_key : string) : string :=
  "https://cbr.example/daily?date_req=" +:+ date_key.

(** A day. *)
Definition sample_date : date := mkdate 2026 11 3.

(** A process with an empty table, one push subscriber and no bus connection yet. *)
Definition fresh_world : World :=
  mkWorld (mkDb ∅ 1%Z) (mkConnectionManager {[ 1%positive ]} true)
    (mkNatsPublisher None) ∅.

(** One poll cycle of the poller, for one fixed-income code and one crypto code. *)
Definition sample_cycle : M unit :=
  task_poller.run_once sample_fromstring sample_float sample_int (λ _, None)
    "https://cbr.example/daily" "https://binance.example/price" ["USD"] "CBR"
    ["BTC"] "".

(** What a sync-cycle [upsert_item] does to the table: a new row for an unseen
    code, nothing within the tolerance, the updated row otherwise. *)
Definition upsert_db (CRYPTO_CODES : list string) (now : Z) (code : string)
    (data : RateData) (d : Db) : Db :=
  match rows d !! code with
  | None =>
      mkDb (<[code := created_item CRYPTO_CODES code data (next_id d) now]>
              (rows d))
        (next_id d + 1)%Z
  | Some item =>
      if rates_close (rate item) (d_rate data) then d
      else store_row d (updated_item CRYPTO_CODES code data now item)
  end.

(** The code has a row whose rate passes the tolerance test against the
    record. *)
Definition row_synced (code : string) (data : RateData) (d : Db) : Prop :=
  ∃ item,
    rows d !! code = Some item ∧
    rates_close (rate item) (d_rate data) = true.

(** The URL of the request for one symbol: the [symbol] parameter is the pair
    against USDT. *)
Definition binance_url (BINANCE_URL sym : string) : string :=
  BINANCE_URL +:+ "?symbol=" +:+ (sym +:+ "USDT").

(** The price one symbol yields: the request succeeds, the body has a price
    and [float] accepts it. *)
Definition binance_price (py_float : string → option float)
    (json_price : string → option string) (BINANCE_URL : string)
    (e : Env) (sym : string) : option float :=
  match http_binance e (binance_url BINANCE_URL sym) with
  | HttpResponse true content =>
      match json_price content with
      | Some s => py_float s
      | None => None
      end
  | _ => None
  end.

(** The entry a crypto fetch stores for a price. *)
Definition binance_entry (platform : string) (usd_rub price : float)
    : RateData :=
  mkRateData (PrimFloat.mul price usd_rub) (Some 1%Z) (Some platform).

(** The map a crypto fetch builds over its symbols, from the prices they
    yield. *)
Definition binance_rates (price : string → option float) (platform : string)
    (usd_rub : float) (symbols : list string) (acc : gmap string RateData)
    : gmap string RateData :=
  foldl (λ result sym,
           match price sym with
           | Some p => <[sym := binance_entry platform usd_rub p]> result
           | None => result
           end) acc symbols.

(** The trace of a crypto fetch: one request per symbol, and a log line for
    each symbol that yields no price. *)
Definition binance_trace (price : string → option float)
    (BINANCE_URL log : string) (symbols : list string) : list effect :=
  flat_map (λ sym,
              EHttpGet (binance_url BINANCE_URL sym) ::
              match price sym with
              | Some _ => []
              | None => [EPrint log]
              end) symbols.

(** The URLs a trace requests, in order. *)
Fixpoint requests (tr : list effect) : list string :=
  match tr with
  | [] => []
  | EHttpGet url :: rest => url :: requests rest
  | _ :: rest => requests rest
  end.

(** The table after the upserts of a list of entries, in order. *)
Definition sync_db (CRYPTO_CODES : list string) (now : Z)
    (entries : list (string * RateData)) (d : Db) : Db :=
  foldl (λ acc kv, upsert_db CRYPTO_CODES now kv.1 kv.2 acc) d entries.

(** The codes a trace commits, in order. *)
Fixpoint commits (tr : list effect) : list string :=
  match tr with
  | [] => []
  | EDbCommit code :: rest => code :: commits rest
  | _ :: rest => commits rest
  end.

(** What [fetch_cbr] returns or raises, by the answer of the feed. *)
Definition cbr_rates (ET_fromstring : string → option Element)
    (py_float : string → option float) (py_int : string → option Z)
    (CBR_URL CBR_PLATFORM : string) (wanted : list string) (e : Env)
    : outcome (gmap string RateData) :=
  match http_cbr e CBR_URL with
  | HttpResponse true content =>
      match
        parser.parse_cbr_xml ET_fromstring py_float py_int CBR_PLATFORM
          content wanted
      with
      | Returned parsed =>
          Returned (dict_update (rub_only 1.0 CBR_PLATFORM) parsed)
      | Raised exc => Raised exc
      end
  | _ => Returned (rub_only 1.0 CBR_PLATFORM)
  end.

(** The trace of [fetch_cbr]: the request, and a log line when it failed. *)
Definition cbr_trace (CBR_URL : string) (e : Env) : list effect :=
  EHttpGet CBR_URL ::
  if http_failed (http_cbr e CBR_URL) then [EPrint "Ошибка ЦБ"] else [].

(** The merged map a cycle of [Poller.run_once] upserts, by the answers of
    both feeds. *)
Definition cycle_rates (ET_fromstring : string → option Element)
    (py_float : string → option float) (py_int : string → option Z)
    (json_price : string → option string)
    (CBR_URL BINANCE_URL : string) (CURRENCY : list string)
    (CBR_PLATFORM : string) (CRYPTO_CODES : list string)
    (CRYPTO_PLATFORM : string) (e : Env) : outcome (gmap string RateData) :=
  match
    cbr_rates ET_fromstring py_float py_int CBR_URL CBR_PLATFORM CURRENCY e
  with
  | Raised exc => Raised exc
  | Returned rates =>
      Returned
        (task_poller.combined rates
           (binance_rates
              (binance_price py_float json_price BINANCE_URL e)
              (task_poller.crypto_platform CRYPTO_PLATFORM)
              (task_poller.usd_of rates) CRYPTO_CODES ∅))
  end.

(** What [NatsSubscriber._upsert_item] does to the table. *)
Definition replication_db (item : ItemPayload) (code : string) (now : Z)
    (d : Db) : Db :=
  match rows d !! code with
  | Some model => store_row d (replicated_item item model)
  | None =>
      mkDb (<[code := created_from_payload code item (next_id d) now]> (rows d))
        (next_id d + 1)%Z
  end.


(** The [_has_clients] event is set exactly when the live set is not empty. *)
Definition manager_consistent (m : ConnectionManager) : Prop :=
  has_clients m = true ↔ active m ≠ ∅.

(** What [NatsPublisher.close] prints for a client. *)
Definition close_log (client : NatsClient) (drain_ok close_ok : bool)
    : list effect :=
  (if is_connected client
   then if drain_ok then [] else [EPrint "Ошибка drain NATS"]
   else []) ++
  (if close_ok then [] else [EPrint "Ошибка close NATS"]) ++
  [EPrint "NATS publisher отключен"].

(** An entry as [parse_cbr_xml] stores it: an allowed code, the fixed-income
    platform and a unit amount that is not zero. *)
Definition feed_entry (allowed_codes : list string) (CBR_PLATFORM : string)
    (code : string) (data : RateData) : Prop :=
  code ∈ allowed_codes ∧
  d_platform data = Some CBR_PLATFORM ∧
  ∃ amount, d_amount data = Some amount ∧ amount ≠ 0%Z.

(** An outside world where both feeds answer: the fixed-income feed with the
    sample document, the crypto feed with one price. *)
Definition env_feed_up (now : Z) : Env :=
  mkEnv (λ _, true) true true true now
    (λ _, HttpResponse true xml_both_values)
    (λ _, HttpResponse true "price-45.25").

(** The fixed-income map of that feed. *)
Definition sample_fixed_rates : gmap string RateData :=
  <["USD" := mkRateData 45.25 (Some 1%Z) (Some "CBR")]> (rub_only 1.0 "CBR").

(** A calendar date with a year of four digits. *)
Definition valid_date (dt : date) : Prop :=
  (1 ≤ day dt ≤ 31)%Z ∧ (1 ≤ month dt ≤ 12)%Z ∧ (1000 ≤ year dt ≤ 9999)%Z.





(** * Properties *)

Ltac run := unfold bind, ret, raise, try_except, tell, print, ask, get, put,
  set_manager, set_db, set_publisher, set_rates_cache in *; cbn [fst snd] in *.

(** ** The broadcast registry *)

(** Replacing the manager by itself changes nothing. *)
Lemma with_manager_same w : with_manager w (w_manager w) = w.
Proof. by destruct w. Qed.

(** [disconnect] discards the connection and prints one line. *)
Lemma disconnect_run ws e w :
  ws_handler.disconnect ws e w =
  (Returned tt, with_manager w (manager_discard (w_manager w) ws), [EPrint "WebSocket отключен"]).
Proof.
  unfold ws_handler.disconnect. run. unfold with_manager, manager_discard. cbn.
  destruct (decide _); reflexivity.
Qed.

(** The first loop of [broadcast] attempts every connection once, in order,
    leaves the world alone and returns the connections that failed. *)
Lemma send_pass_run conns data bad e w :
  ws_handler.send_pass conns data bad e w =
  (Returned (bad ++ failed_sends e conns), w, fan_out conns data).
Proof.
  revert bad. induction conns as [|ws rest IH]; intros bad.
  - cbn. run. by rewrite app_nil_r.
  - cbn [ws_handler.send_pass]. unfold bind at 1. unfold try_except at 1.
    unfold ws_handler.send_json. run. unfold failed_sends. rewrite filter_cons.
    destruct (ws_send_ok e ws) eqn:Hok; cbn; rewrite IH; case_decide; try congruence.
    + reflexivity.
    + by rewrite <- app_assoc.
Qed.

(** The second loop of [broadcast] discards the collected connections. *)
Lemma remove_pass_run bad e w :
  for_each bad (λ ws, ws_handler.disconnect ws ;;; print "Удалён неработающий WebSocket") e w =
  (Returned tt, with_manager w (foldl manager_discard (w_manager w) bad), removal_log bad).
Proof.
  revert w. induction bad as [|ws rest IH]; intros w.
  - cbn. run. by rewrite with_manager_same.
  - cbn [for_each]. unfold bind at 1. unfold bind at 1. rewrite disconnect_run.
    unfold print, tell. cbn. rewrite IH. reflexivity.
Qed.

(** Discarding a list of connections removes exactly them. *)
Lemma active_foldl_discard bad mgr :
  active (foldl manager_discard mgr bad) = active mgr ∖ list_to_set bad.
Proof.
  revert mgr. induction bad as [|ws rest IH]; intros mgr; cbn.
  - by rewrite difference_empty_L.
  - rewrite IH. cbn. apply set_eq. intros x.
    rewrite !elem_of_difference, elem_of_union. tauto.
Qed.

(** The recipients of a fan-out are its connections. *)
Lemma recipients_fan_out conns data tail :
  recipients (fan_out conns data ++ tail) = conns ++ recipients tail.
Proof. induction conns as [|ws rest IH]; cbn; [done | f_equal; exact IH]. Qed.

(** Unregistering delivers nothing. *)
Lemma recipients_removal_log bad : recipients (removal_log bad) = [].
Proof. induction bad; cbn; done. Qed.

(** [broadcast] with subscribers: one encoding, the fan-out, then the removals. *)
Lemma broadcast_run message e w :
  active (w_manager w) ≠ ∅ →
  ws_handler.broadcast message e w =
  (Returned tt,
   with_manager w (foldl manager_discard (w_manager w)
                     (failed_sends e (elements (active (w_manager w))))),
   EJsonableEncoder message ::
     fan_out (elements (active (w_manager w))) message ++
     removal_log (failed_sends e (elements (active (w_manager w))))).
Proof.
  intros Hne. unfold ws_handler.broadcast. unfold bind at 1. unfold get.
  destruct (decide _) as [|_]; [done|].
  unfold bind at 1. unfold tell. unfold bind at 1.
  rewrite send_pass_run. rewrite remove_pass_run. reflexivity.
Qed.

(** [broadcast] without subscribers does nothing. *)
Lemma broadcast_idle message e w :
  active (w_manager w) = ∅ → ws_handler.broadcast message e w = (Returned tt, w, []).
Proof.
  intros He. unfold ws_handler.broadcast. unfold bind at 1. unfold get.
  destruct (decide _); [reflexivity | done].
Qed.

(** The live set minus the failed connections is the set of those that
    accepted the message. *)
Lemma survivors_eq (e : Env) (A : gset WebSocket) :
  A ∖ list_to_set (failed_sends e (elements A)) = filter (λ ws, ws_send_ok e ws = true) A.
Proof.
  apply set_eq. intros ws. unfold failed_sends.
  rewrite elem_of_difference, elem_of_list_to_set, list_elem_of_filter, elem_of_elements, elem_of_filter.
  destruct (ws_send_ok e ws); intuition congruence.
Qed.

(** C5. For every call [broadcast message]: with an empty live set it
    returns at once, serializing nothing; otherwise it serializes the message
    once, attempts one delivery to every subscriber registered at call time
    (a failed send does not stop the pass), and only after the whole pass
    unregisters the subscribers whose send failed; the live set is then the
    set of subscribers that accepted the message, storage, publisher and
    cache are untouched, and a subsequent broadcast attempts delivery to
    exactly those survivors. *)
Theorem broadcast_fan_out_then_prune message e w :
  let A := active (w_manager w) in
  let survivors : gset WebSocket := filter (λ ws, ws_send_ok e ws = true) A in
  (A = ∅ → ws_handler.broadcast message e w = (Returned tt, w, [])) ∧
  (A ≠ ∅ →
   ∃ w',
     ws_handler.broadcast message e w =
       (Returned tt, w',
        EJsonableEncoder message :: fan_out (elements A) message ++
          removal_log (failed_sends e (elements A))) ∧
     active (w_manager w') = survivors ∧
     w_db w' = w_db w ∧ w_publisher w' = w_publisher w ∧
     w_rates_cache w' = w_rates_cache w ∧
     ∀ message2 e2,
       recipients (ws_handler.broadcast message2 e2 w').2 = elements survivors).
Proof.
  intros A survivors. split; [apply broadcast_idle|]. intros Hne.
  set (w' := with_manager w (foldl manager_discard (w_manager w)
                               (failed_sends e (elements A)))).
  assert (Hact : active (w_manager w') = survivors).
  { subst w'. cbn. rewrite active_foldl_discard. apply survivors_eq. }
  exists w'. split; [by apply broadcast_run|].
  split; [exact Hact|]. repeat split.
  intros message2 e2.
  destruct (decide (survivors = ∅)) as [Hs|Hs].
  - rewrite broadcast_idle by congruence. by rewrite Hs, elements_empty.
  - rewrite broadcast_run by congruence. cbn [snd recipients].
    by rewrite recipients_fan_out, recipients_removal_log, app_nil_r, Hact.
Qed.

(** ** The tolerance test on floats *)







(** ** The event-bus publisher *)

(** Replacing the publisher by itself changes nothing. *)
Lemma with_publisher_same w : with_publisher w (w_publisher w) = w.
Proof. by destruct w. Qed.

(** [publish] on an open connection is the send attempt. *)
Lemma publish_connected subject message e w :
  nats_pub.client_connected (w_publisher w) = true →
  nats_pub.publish subject message e w =
  ((send_attempt subject message e).1, w, (send_attempt subject message e).2).
Proof.
  intros Hc. unfold nats_pub.publish, send_attempt.
  cbv [bind get ret]. rewrite Hc.
  unfold nats_pub.client_connected in Hc.
  destruct (pub_client (w_publisher w)) as [c|]; [|done].
  cbv [try_except bind nats_pub.client_publish nats_pub.client_flush ask tell
       print raise ret publish_log].
  destruct (nats_publish_ok e), (nats_flush_ok e); reflexivity.
Qed.

(** [connect] without an open connection. *)
Lemma connect_disconnected e w :
  nats_pub.client_connected (w_publisher w) = false →
  nats_pub.connect e w =
  if nats_connect_ok e
  then (Returned tt, with_publisher w connected_publisher,
        [ENatsConnect; EPrint "NATS publisher подключен"])
  else (Raised "NoServersError", w, [ENatsConnect]).
Proof.
  intros Hc. unfold nats_pub.connect. unfold bind at 1. unfold get at 1.
  cbv beta iota. rewrite Hc.
  cbv [bind get ret ask tell set_publisher put print raise].
  destruct (nats_connect_ok e); reflexivity.
Qed.

(** [publish] without an open connection connects first. *)
Lemma publish_disconnected subject message e w :
  nats_pub.client_connected (w_publisher w) = false →
  nats_pub.publish subject message e w =
  if nats_connect_ok e
  then ((send_attempt subject message e).1,
        with_publisher w connected_publisher,
        ENatsConnect :: EPrint "NATS publisher подключен" ::
          (send_attempt subject message e).2)
  else (Raised "NoServersError", w, [ENatsConnect]).
Proof.
  intros Hc. unfold nats_pub.publish. unfold bind at 1. unfold get at 1.
  cbv beta iota. rewrite Hc. unfold bind at 1.
  rewrite (connect_disconnected e w Hc).
  destruct (nats_connect_ok e); [|reflexivity].
  cbv [send_attempt try_except bind get nats_pub.client_publish
       nats_pub.client_flush ask tell print raise ret publish_log
       with_publisher connected_publisher pub_client w_publisher].
  destruct (nats_publish_ok e), (nats_flush_ok e); reflexivity.
Qed.

(** [broadcast] always returns and changes the manager only. *)
Lemma broadcast_returns message e w :
  ∃ mgr tr,
    ws_handler.broadcast message e w = (Returned tt, with_manager w mgr, tr).
Proof.
  destruct (decide (active (w_manager w) = ∅)) as [He|Hne].
  - exists (w_manager w), []. by rewrite with_manager_same, broadcast_idle.
  - eexists _, _. by apply broadcast_run.
Qed.




(** ** The merge of the two rate maps *)

(** [d.update(other)] is the union in which [other] wins. *)
Lemma dict_update_union {V} (d other : gmap string V) :
  dict_update d other = other ∪ d.
Proof.
  unfold dict_update.
  apply (map_fold_weak_ind (λ r m, r = m ∪ d)).
  - by rewrite (left_id_L ∅ (∪)).
  - intros i x m r _ ->. by rewrite insert_union_l.
Qed.

(** A key of the updated dict reads the value of [other] where it has one. *)
Lemma dict_update_lookup {V} (d other : gmap string V) (k : string) :
  dict_update d other !! k =
  match other !! k with
  | Some v => Some v
  | None => d !! k
  end.
Proof.
  rewrite dict_update_union, lookup_union.
  by destruct (other !! k), (d !! k).
Qed.

(** C2, as amended. In both poll cycles the merge of the fixed-income map
    and the crypto map is a map union keyed by code in which a code present
    in both maps keeps the crypto entry; a code present in one map only keeps
    that entry. *)
Theorem merge_keeps_crypto_entry (rates crypto : gmap string RateData)
    (code : string) :
  task_poller.combined rates crypto !! code =
    match crypto !! code with
    | Some entry => Some entry
    | None => rates !! code
    end ∧
  parser.all_rates rates crypto !! code =
    match crypto !! code with
    | Some entry => Some entry
    | None => rates !! code
    end.
Proof. split; apply dict_update_lookup. Qed.

(** C2 fails as stated: for a code present in both maps, the merge of both
    poll cycles holds the crypto entry, not the fixed-income one. *)
Lemma merge_overwrites_fixed_income_entry :
  let rates : gmap string RateData := {[ "USD" := sample_cbr_usd ]} in
  let crypto : gmap string RateData := {[ "USD" := sample_crypto_usd ]} in
  rates !! "USD" = Some sample_cbr_usd ∧
  crypto !! "USD" = Some sample_crypto_usd ∧
  task_poller.combined rates crypto !! "USD" = Some sample_crypto_usd ∧
  parser.all_rates rates crypto !! "USD" = Some sample_crypto_usd ∧
  sample_crypto_usd ≠ sample_cbr_usd.
Proof.
  cbv zeta. repeat split; try (vm_compute; reflexivity).
  intros H. discriminate (f_equal d_platform H).
Qed.

(** ** Storage and the replication upsert *)

(** The commit of a changed row. *)
Lemma commit_refresh_run item e w :
  session.commit_refresh item e w =
  (Returned item, with_db w (store_row (w_db w) item),
   [EDbCommit (currency item)]).
Proof. reflexivity. Qed.

(** The commit of a new row. *)
Lemma add_commit_refresh_run item e w :
  session.add_commit_refresh item e w =
  (Returned (mkItemModel (Some (next_id (w_db w))) (currency item) (rate item)
               (amount item) (platform item) (crypto_currency item)
               (last_updated_time item)),
   with_db w
     (mkDb (<[currency item :=
                mkItemModel (Some (next_id (w_db w))) (currency item)
                  (rate item) (amount item) (platform item)
                  (crypto_currency item) (last_updated_time item)]>
              (rows (w_db w)))
        (next_id (w_db w) + 1)%Z),
   [EDbCommit (currency item)]).
Proof. reflexivity. Qed.

(** The replication upsert of a code that has a row. *)
Lemma replication_upsert_existing item code model e w :
  p_currency item = Some code →
  rows (w_db w) !! code = Some model →
  nats_sub._upsert_item item e w =
  (Returned tt, with_db w (store_row (w_db w) (replicated_item item model)),
   [EDbCommit (currency model); EPrint "Item updated from NATS"]).
Proof.
  intros Hc Hrow. unfold nats_sub._upsert_item. rewrite Hc.
  unfold bind at 1. cbv [session.select_by_currency bind get ret].
  rewrite Hrow. reflexivity.
Qed.

(** The replication upsert of a code that has no row. *)
Lemma replication_upsert_new item code e w :
  p_currency item = Some code →
  rows (w_db w) !! code = None →
  nats_sub._upsert_item item e w =
  (Returned tt,
   with_db w
     (mkDb (<[code := created_from_payload code item (next_id (w_db w))
                        (utcnow e)]> (rows (w_db w)))
        (next_id (w_db w) + 1)%Z),
   [EDbCommit code; EPrint "Item created from NATS"]).
Proof.
  intros Hc Hrow. unfold nats_sub._upsert_item. rewrite Hc.
  unfold bind at 1. cbv [session.select_by_currency bind get ret].
  rewrite Hrow. reflexivity.
Qed.

(** ** What the emitters hand on *)

(** The events of a concatenated trace. *)
Lemma emitted_events_app t1 t2 :
  emitted_events (t1 ++ t2) = emitted_events t1 ++ emitted_events t2.
Proof.
  induction t1 as [|ev t1 IH]; [done|].
  destruct ev; cbn; by rewrite ?IH.
Qed.

(** A fan-out reaches push subscribers only. *)
Lemma fan_out_local conns data :
  Forall (λ ev, replication_effect ev = true) (fan_out conns data).
Proof. induction conns; cbn; by constructor. Qed.

(** A fan-out carries the one message. *)
Lemma fan_out_events conns data :
  Forall (eq data) (emitted_events (fan_out conns data)).
Proof. induction conns; cbn; by constructor. Qed.

(** Unregistering only prints. *)
Lemma removal_log_local bad :
  Forall (λ ev, replication_effect ev = true) (removal_log bad).
Proof. induction bad; cbn; by repeat constructor. Qed.

(** Unregistering emits no event. *)
Lemma removal_log_events bad : emitted_events (removal_log bad) = [].
Proof. induction bad; cbn; done. Qed.

(** [broadcast] returns, changes the manager only, reaches push subscribers
    only and carries the one message. *)
Lemma broadcast_trace message e w :
  ∃ mgr tr,
    ws_handler.broadcast message e w = (Returned tt, with_manager w mgr, tr) ∧
    Forall (λ ev, replication_effect ev = true) tr ∧
    Forall (eq message) (emitted_events tr).
Proof.
  destruct (decide (active (w_manager w) = ∅)) as [He|Hne].
  - exists (w_manager w), []. rewrite with_manager_same, broadcast_idle by done.
    by repeat split.
  - eexists _, _. split; [by apply broadcast_run|]. split.
    + constructor; [done|]. apply Forall_app.
      split; [apply fan_out_local | apply removal_log_local].
    + cbn [emitted_events]. constructor; [done|].
      rewrite emitted_events_app, removal_log_events, app_nil_r.
      apply fan_out_events.
Qed.

(** [publish] changes the publisher only and carries the one message. *)
Lemma publish_trace subject message e w :
  ∃ r p tr,
    nats_pub.publish subject message e w = (r, with_publisher w p, tr) ∧
    Forall (eq message) (emitted_events tr).
Proof.
  destruct (nats_pub.client_connected (w_publisher w)) eqn:Hc.
  - eexists _, (w_publisher w), _. rewrite with_publisher_same.
    split; [by apply publish_connected|].
    unfold send_attempt.
    destruct (nats_publish_ok e), (nats_flush_ok e); cbn; by repeat constructor.
  - rewrite (publish_disconnected _ _ _ _ Hc).
    destruct (nats_connect_ok e).
    + eexists _, _, _. split; [done|]. unfold send_attempt.
      destruct (nats_publish_ok e), (nats_flush_ok e); cbn;
        by repeat constructor.
    + eexists _, (w_publisher w), _. rewrite with_publisher_same.
      split; [done|]. cbn. constructor.
Qed.

(** [emit_event] returns, and every event it hands on is the event of the item. *)
Lemma emit_event_trace event_type item e w :
  ∃ mgr p tr,
    task_poller.emit_event event_type item e w =
      (Returned tt, with_publisher (with_manager w mgr) p, tr) ∧
    Forall (eq (event_of_item event_type item)) (emitted_events tr).
Proof.
  unfold task_poller.emit_event. unfold bind at 1. unfold try_except at 1.
  destruct (broadcast_trace (event_of_item event_type item) e w)
    as (mgr & tr1 & -> & _ & Hev1).
  unfold try_except at 1.
  destruct (publish_trace "items.updates" (event_of_item event_type item) e
              (with_manager w mgr)) as ([[]|exc] & p & tr2 & -> & Hev2).
  - eexists _, _, _. split; [done|].
    rewrite emitted_events_app. by apply Forall_app.
  - cbv [print tell]. eexists _, _, _. split; [done|].
    rewrite !emitted_events_app. cbn. rewrite app_nil_r. by apply Forall_app.
Qed.

(** [broadcast_event] returns, and every event it hands on is the event of the
    item. *)
Lemma broadcast_event_trace event_type item e w :
  ∃ mgr tr,
    parser.broadcast_event event_type item e w =
      (Returned tt, with_manager w mgr, tr) ∧
    Forall (eq (event_of_item event_type item)) (emitted_events tr).
Proof.
  unfold parser.broadcast_event. unfold try_except at 1.
  destruct (broadcast_trace (event_of_item event_type item) e w)
    as (mgr & tr1 & -> & _ & Hev1).
  by eexists _, _.
Qed.

(** ** The sync-cycle upsert *)

(** The update branch of the poller's [upsert_item]. *)
Lemma poller_upsert_existing CRYPTO_CODES code data item e w :
  rows (w_db w) !! code = Some item →
  rates_close (rate item) (d_rate data) = false →
  ∃ mgr p tr,
    task_poller.upsert_item CRYPTO_CODES code data e w =
      (Returned tt,
       with_publisher
         (with_manager
            (with_db w (store_row (w_db w)
                          (updated_item CRYPTO_CODES code data (utcnow e) item)))
            mgr) p,
       EDbCommit (currency item) :: tr) ∧
    Forall (eq (event_of_item "updated"
                  (updated_item CRYPTO_CODES code data (utcnow e) item)))
      (emitted_events tr).
Proof.
  intros Hrow Hfar. unfold task_poller.upsert_item.
  unfold bind at 1. cbv [session.select_by_currency bind get ret].
  rewrite Hrow, Hfar. cbv [ask].
  change (set_last_updated_time _ _)
    with (updated_item CRYPTO_CODES code data (utcnow e) item).
  rewrite commit_refresh_run.
  destruct (emit_event_trace "updated"
              (updated_item CRYPTO_CODES code data (utcnow e) item) e
              (with_db w (store_row (w_db w)
                 (updated_item CRYPTO_CODES code data (utcnow e) item))))
    as (mgr & p & tr & -> & Hev).
  by eexists _, _, _.
Qed.

(** The create branch of the poller's [upsert_item]. *)
Lemma poller_upsert_new CRYPTO_CODES code data e w :
  rows (w_db w) !! code = None →
  ∃ mgr p tr,
    task_poller.upsert_item CRYPTO_CODES code data e w =
      (Returned tt,
       with_publisher
         (with_manager
            (with_db w
               (mkDb (<[code := created_item CRYPTO_CODES code data
                                  (next_id (w_db w)) (utcnow e)]>
                        (rows (w_db w)))
                  (next_id (w_db w) + 1)%Z))
            mgr) p,
       EDbCommit code :: tr) ∧
    Forall (eq (event_of_item "created"
                  (created_item CRYPTO_CODES code data (next_id (w_db w))
                     (utcnow e))))
      (emitted_events tr).
Proof.
  intros Hrow. unfold task_poller.upsert_item.
  unfold bind at 1. cbv [session.select_by_currency bind get ret].
  rewrite Hrow. cbv [ask]. rewrite add_commit_refresh_run.
  cbn [currency rate amount platform crypto_currency last_updated_time].
  fold (created_item CRYPTO_CODES code data (next_id (w_db w)) (utcnow e)).
  match goal with
  | |- context [task_poller.emit_event ?ty ?it e ?w1] =>
      destruct (emit_event_trace ty it e w1) as (mgr & p & tr & -> & Hev)
  end.
  by eexists _, _, _.
Qed.

(** The update branch of the parser's [upsert_item]. *)
Lemma parser_upsert_existing CRYPTO_CODES code data item e w :
  rows (w_db w) !! code = Some item →
  rates_close (rate item) (d_rate data) = false →
  ∃ mgr tr,
    parser.upsert_item CRYPTO_CODES code data e w =
      (Returned tt,
       with_manager
         (with_db w (store_row (w_db w)
                       (updated_item CRYPTO_CODES code data (utcnow e) item)))
         mgr,
       EDbCommit (currency item) :: tr) ∧
    Forall (eq (event_of_item "updated"
                  (updated_item CRYPTO_CODES code data (utcnow e) item)))
      (emitted_events tr).
Proof.
  intros Hrow Hfar. unfold parser.upsert_item.
  unfold bind at 1. cbv [session.select_by_currency bind get ret].
  rewrite Hrow, Hfar. cbv [ask].
  change (set_last_updated_time _ _)
    with (updated_item CRYPTO_CODES code data (utcnow e) item).
  rewrite commit_refresh_run.
  match goal with
  | |- context [parser.broadcast_event ?ty ?it e ?w1] =>
      destruct (broadcast_event_trace ty it e w1) as (mgr & tr & -> & Hev)
  end.
  by eexists _, _.
Qed.

(** The create branch of the parser's [upsert_item]. *)
Lemma parser_upsert_new CRYPTO_CODES code data e w :
  rows (w_db w) !! code = None →
  ∃ mgr tr,
    parser.upsert_item CRYPTO_CODES code data e w =
      (Returned tt,
       with_manager
         (with_db w
            (mkDb (<[code := created_item CRYPTO_CODES code data
                               (next_id (w_db w)) (utcnow e)]>
                     (rows (w_db w)))
               (next_id (w_db w) + 1)%Z))
         mgr,
       EDbCommit code :: tr) ∧
    Forall (eq (event_of_item "created"
                  (created_item CRYPTO_CODES code data (next_id (w_db w))
                     (utcnow e))))
      (emitted_events tr).
Proof.
  intros Hrow. unfold parser.upsert_item.
  unfold bind at 1. cbv [session.select_by_currency bind get ret].
  rewrite Hrow. cbv [ask]. rewrite add_commit_refresh_run.
  cbn [currency rate amount platform crypto_currency last_updated_time].
  fold (created_item CRYPTO_CODES code data (next_id (w_db w)) (utcnow e)).
  match goal with
  | |- context [parser.broadcast_event ?ty ?it e ?w1] =>
      destruct (broadcast_event_trace ty it e w1) as (mgr & tr & -> & Hev)
  end.
  by eexists _, _.
Qed.

(** Within the tolerance both [upsert_item]s do nothing. *)
Lemma upsert_close_noop CRYPTO_CODES code data item e w :
  rows (w_db w) !! code = Some item →
  rates_close (rate item) (d_rate data) = true →
  task_poller.upsert_item CRYPTO_CODES code data e w = (Returned tt, w, []) ∧
  parser.upsert_item CRYPTO_CODES code data e w = (Returned tt, w, []).
Proof.
  intros Hrow Hclose.
  cbv [task_poller.upsert_item parser.upsert_item bind
       session.select_by_currency get ret ask].
  by rewrite Hrow, Hclose.
Qed.



(** The trace of [emit_event]: the broadcast, then the publication, then the
    log line of a failed publication. *)
Lemma emit_event_parts event_type item e w :
  let event := event_of_item event_type item in
  let sent := ws_handler.broadcast event e w in
  let published := nats_pub.publish "items.updates" event e sent.1.2 in
  ∃ rest,
    task_poller.emit_event event_type item e w =
      (Returned tt, published.1.2, sent.2 ++ published.2 ++ rest) ∧
    (rest = [] ∨ rest = [EPrint "NATS publish failed"]).
Proof.
  cbv zeta.
  destruct (broadcast_returns (event_of_item event_type item) e w)
    as (mgr & tr1 & Hrun).
  unfold task_poller.emit_event. unfold bind at 1. unfold try_except at 1.
  rewrite Hrun. cbn [fst snd]. unfold try_except at 1.
  destruct (nats_pub.publish "items.updates" _ e (with_manager w mgr))
    as [[[[]|exc] w2] tr2]; cbn [fst snd].
  - exists []. split; [by rewrite app_nil_r|by left].
  - cbv [print tell]. exists [EPrint "NATS publish failed"]. split; [done|by right].
Qed.



(** The update branch of the poller's [upsert_item] is the commit followed by
    [emit_event]. *)
Lemma poller_upsert_existing_run CRYPTO_CODES code data item e w :
  rows (w_db w) !! code = Some item →
  rates_close (rate item) (d_rate data) = false →
  let stored := updated_item CRYPTO_CODES code data (utcnow e) item in
  let emit :=
    task_poller.emit_event "updated" stored e
      (with_db w (store_row (w_db w) stored)) in
  task_poller.upsert_item CRYPTO_CODES code data e w =
  (emit.1.1, emit.1.2, EDbCommit (currency item) :: emit.2).
Proof.
  intros Hrow Hfar stored emit. subst emit. unfold task_poller.upsert_item.
  unfold bind at 1. cbv [session.select_by_currency bind get ret].
  rewrite Hrow, Hfar. cbv [ask].
  change (set_last_updated_time _ _) with stored.
  rewrite commit_refresh_run.
  by destruct (task_poller.emit_event _ stored e _) as [[r w2] t2].
Qed.



(** ** The replication path *)


(** C7, as amended. Every Item the sync-cycle upsert writes (either
    implementation) is stored, and emitted, with a crypto flag equal to the
    membership of its code in the configured crypto codes, whatever the
    fetched record holds. The replication upsert stores the crypto flag of
    the received item instead; where the received item has none it keeps the
    stored flag, or False for a new code. *)
Theorem crypto_flag_by_upsert_path (CRYPTO_CODES : list string)
    (code : string) (data : RateData) (item : ItemPayload)
    (e : Env) (w : World) :
  rows_keyed (w_db w) →
  let flag := bool_decide (code ∈ CRYPTO_CODES) in
  (∃ w' tr,
     task_poller.upsert_item CRYPTO_CODES code data e w = (Returned tt, w', tr) ∧
     ((w' = w ∧ tr = []) ∨
      ∃ stored event_type,
        rows (w_db w') !! code = Some stored ∧
        currency stored = code ∧
        crypto_currency stored = flag ∧
        Forall (eq (event_of_item event_type stored)) (emitted_events tr))) ∧
  (∃ w' tr,
     parser.upsert_item CRYPTO_CODES code data e w = (Returned tt, w', tr) ∧
     ((w' = w ∧ tr = []) ∨
      ∃ stored event_type,
        rows (w_db w') !! code = Some stored ∧
        currency stored = code ∧
        crypto_currency stored = flag ∧
        Forall (eq (event_of_item event_type stored)) (emitted_events tr))) ∧
  (p_currency item = Some code →
   ∃ w' tr stored,
     nats_sub._upsert_item item e w = (Returned tt, w', tr) ∧
     rows (w_db w') !! code = Some stored ∧
     crypto_currency stored =
       default (from_option crypto_currency false (rows (w_db w) !! code))
         (p_crypto_currency item)).
Proof.
  intros Hkeyed flag. split; [|split].
  - destruct (rows (w_db w) !! code) as [existing|] eqn:Hrow.
    + pose proof (Hkeyed _ _ Hrow) as Hcur.
      destruct (rates_close (rate existing) (d_rate data)) eqn:Hclose.
      * exists w, []. split; [|by left].
        by apply (upsert_close_noop CRYPTO_CODES code data existing e w).
      * destruct (poller_upsert_existing CRYPTO_CODES code data existing e w
                    Hrow Hclose) as (mgr & p & tr & -> & Hev).
        eexists _, _. split; [done|]. right.
        exists (updated_item CRYPTO_CODES code data (utcnow e) existing),
          "updated".
        repeat split; [|done|exact Hev].
        cbn. rewrite Hcur. apply lookup_insert_eq.
    + destruct (poller_upsert_new CRYPTO_CODES code data e w Hrow)
        as (mgr & p & tr & -> & Hev).
      eexists _, _. split; [done|]. right.
      exists (created_item CRYPTO_CODES code data (next_id (w_db w)) (utcnow e)),
        "created".
      repeat split; [|exact Hev].
      cbn. apply lookup_insert_eq.
  - destruct (rows (w_db w) !! code) as [existing|] eqn:Hrow.
    + pose proof (Hkeyed _ _ Hrow) as Hcur.
      destruct (rates_close (rate existing) (d_rate data)) eqn:Hclose.
      * exists w, []. split; [|by left].
        by apply (upsert_close_noop CRYPTO_CODES code data existing e w).
      * destruct (parser_upsert_existing CRYPTO_CODES code data existing e w
                    Hrow Hclose) as (mgr & tr & -> & Hev).
        eexists _, _. split; [done|]. right.
        exists (updated_item CRYPTO_CODES code data (utcnow e) existing),
          "updated".
        repeat split; [|done|exact Hev].
        cbn. rewrite Hcur. apply lookup_insert_eq.
    + destruct (parser_upsert_new CRYPTO_CODES code data e w Hrow)
        as (mgr & tr & -> & Hev).
      eexists _, _. split; [done|]. right.
      exists (created_item CRYPTO_CODES code data (next_id (w_db w)) (utcnow e)),
        "created".
      repeat split; [|exact Hev].
      cbn. apply lookup_insert_eq.
  - intros Hcode.
    destruct (rows (w_db w) !! code) as [existing|] eqn:Hrow.
    + pose proof (Hkeyed _ _ Hrow) as Hcur.
      rewrite (replication_upsert_existing item code existing e w Hcode Hrow).
      eexists _, _, (replicated_item item existing).
      split; [done|]. split; [|done].
      cbn. rewrite Hcur. apply lookup_insert_eq.
    + rewrite (replication_upsert_new item code e w Hcode Hrow).
      eexists _, _, (created_from_payload code item (next_id (w_db w)) (utcnow e)).
      split; [done|]. split; [|done].
      cbn. apply lookup_insert_eq.
Qed.

(** C4. For every message delivered to the replication handler, every
    effect of the handler is a storage commit, an encoding or delivery to a
    push subscriber, or a log line: it connects to, publishes on and flushes
    nothing of the event bus, it leaves the publisher as it was, and every
    event it hands to the push subscribers is the received one. *)
Theorem replication_never_publishes (json_loads : string → option Json)
    (msg_data : string) (e : Env) (w : World) :
  let run := nats_sub._on_message json_loads msg_data e w in
  Forall (λ ev, replication_effect ev = true) run.2 ∧
  Forall (λ ev, bus_effect ev = false) run.2 ∧
  w_publisher run.1.2 = w_publisher w ∧
  (∀ data, json_loads msg_data = Some (JObject data) →
     Forall (eq data) (emitted_events run.2)).
Proof.
  assert (Hbus : ∀ tr, Forall (λ ev, replication_effect ev = true) tr →
                       Forall (λ ev, bus_effect ev = false) tr).
  { intros tr Htr. eapply Forall_impl; [exact Htr|]. by intros []. }
  cbv zeta.
  assert (Hmain :
    Forall (λ ev, replication_effect ev = true)
      (nats_sub._on_message json_loads msg_data e w).2 ∧
    w_publisher (nats_sub._on_message json_loads msg_data e w).1.2 =
      w_publisher w ∧
    (∀ data, json_loads msg_data = Some (JObject data) →
       Forall (eq data)
         (emitted_events (nats_sub._on_message json_loads msg_data e w).2))).
  { unfold nats_sub._on_message.
    destruct (json_loads msg_data) as [[|data]|];
      [by repeat constructor| |by repeat constructor].
    destruct (ev_item data) as [item_data|]; [|by repeat constructor].
    destruct (p_currency item_data) as [code|] eqn:Hcode;
      [|by repeat constructor].
    destruct (nats_sub.falsy (Some code)); [by repeat constructor|].
    assert (Hup : ∃ d tr1,
      nats_sub._upsert_item item_data e w = (Returned tt, with_db w d, tr1) ∧
      Forall (λ ev, replication_effect ev = true) tr1 ∧
      emitted_events tr1 = []).
    { destruct (rows (w_db w) !! code) as [existing|] eqn:Hrow.
      - rewrite (replication_upsert_existing _ _ _ e w Hcode Hrow).
        eexists _, _. by repeat constructor.
      - rewrite (replication_upsert_new _ _ e w Hcode Hrow).
        eexists _, _. by repeat constructor. }
    destruct Hup as (d & tr1 & Hup & Hloc1 & Hev1).
    destruct (broadcast_trace data e (with_db w d))
      as (mgr & tr2 & Hbc & Hloc2 & Hev2).
    assert (Hrun :
      (nats_sub._upsert_item item_data ;;;
       try_except (ws_handler.broadcast data)
         (λ _, print "WS broadcast error")) e w =
      (Returned tt, with_manager (with_db w d) mgr, tr1 ++ tr2)).
    { unfold bind. rewrite Hup. unfold try_except. by rewrite Hbc. }
    rewrite Hrun. cbn [fst snd].
    split; [by apply Forall_app|]. split; [reflexivity|].
    intros data' [= <-]. by rewrite emitted_events_app, Hev1. }
  destruct Hmain as (Hloc & Hpub & Hev). auto.
Qed.

(** ** The fixed-income fetch *)

Section FetchFixedIncome.

Variable ET_fromstring : string → option Element.
Variable py_float : string → option float.
Variable py_int : string → option Z.
Variable CBR_URL : string.
Variable CBR_URL_format : string → string.
Variable CURRENCY : list string.
Variable CBR_PLATFORM : string.

Local Abbreviation parse :=
  (parser.parse_cbr_xml ET_fromstring py_float py_int CBR_PLATFORM).
Local Abbreviation fetch_sync :=
  (parser.fetch_cbr_rates_sync ET_fromstring py_float py_int CBR_URL_format
     CURRENCY CBR_PLATFORM).
Local Abbreviation fetch_cbr :=
  (task_poller.fetch_cbr ET_fromstring py_float py_int CBR_URL CBR_PLATFORM).

(** The three outcomes of an HTTP GET. *)
Lemma http_get_run oracle url e w :
  http_get oracle url e w =
  match oracle e url with
  | HttpRaises exc => (Raised exc, w, [EHttpGet url])
  | HttpResponse false _ => (Raised "HTTPStatusError", w, [EHttpGet url])
  | HttpResponse true content => (Returned content, w, [EHttpGet url])
  end.
Proof.
  cbv [http_get bind ask tell ret raise].
  by destruct (oracle e url) as [exc|[] content].
Qed.

(** [fetch_cbr] by outcome of the request and of the parse. *)
Lemma fetch_cbr_run wanted e w :
  fetch_cbr wanted e w =
  match http_cbr e CBR_URL with
  | HttpResponse true content =>
      match parse content wanted with
      | Returned parsed =>
          (Returned (dict_update (rub_only 1.0 CBR_PLATFORM) parsed), w,
           [EHttpGet CBR_URL])
      | Raised exc => (Raised exc, w, [EHttpGet CBR_URL])
      end
  | _ =>
      (Returned (rub_only 1.0 CBR_PLATFORM), w,
       [EHttpGet CBR_URL; EPrint "Ошибка ЦБ"])
  end.
Proof.
  unfold task_poller.fetch_cbr.
  unfold bind at 1. unfold try_except at 1. unfold bind at 1.
  rewrite http_get_run.
  destruct (http_cbr e CBR_URL) as [exc|[] content]; try reflexivity.
  cbv [ret bind lift].
  destruct (parser.parse_cbr_xml _ _ _ _ content wanted); reflexivity.
Qed.

(** [fetch_cbr_rates_sync] by cache, outcome of the request and of the parse. *)
Lemma fetch_sync_run dt e w :
  let date_key := parser.format_cbr_date dt in
  let url := CBR_URL_format date_key in
  fetch_sync dt e w =
  match w_rates_cache w !! date_key with
  | Some cached => (Returned cached, w, [])
  | None =>
      match http_cbr e url with
      | HttpResponse true content =>
          match parse content CURRENCY with
          | Returned parsed =>
              (Returned (dict_update (rub_only 1.0 CBR_PLATFORM) parsed),
               with_rates_cache w
                 (<[date_key := dict_update (rub_only 1.0 CBR_PLATFORM) parsed]>
                    (w_rates_cache w)),
               [EHttpGet url])
          | Raised exc => (Raised exc, w, [EHttpGet url])
          end
      | _ =>
          (Returned (rub_only 80.0 CBR_PLATFORM),
           with_rates_cache w
             (<[date_key := rub_only 80.0 CBR_PLATFORM]> (w_rates_cache w)),
           [EHttpGet url; EPrint "Ошибка запроса ЦБ"])
      end
  end.
Proof.
  intros date_key url.
  unfold parser.fetch_cbr_rates_sync. fold date_key. fold url.
  unfold bind at 1. unfold get at 1. cbv beta iota.
  destruct (w_rates_cache w !! date_key) as [cached|]; [reflexivity|].
  unfold bind at 1. unfold try_except at 1. unfold bind at 1.
  rewrite http_get_run.
  destruct (http_cbr e url) as [exc|[] content]; try reflexivity.
  cbv [ret bind lift].
  destruct (parser.parse_cbr_xml _ _ _ _ content CURRENCY); reflexivity.
Qed.

(** The two fallback rates differ. *)
Lemma float_80_is_not_1 : 80.0%float ≠ 1.0%float.
Proof.
  intros H. apply (f_equal (PrimFloat.eqb 1.0)) in H.
  vm_compute in H. discriminate.
Qed.

(** The two fallback maps differ. *)
Lemma rub_only_80_is_not_1 :
  rub_only 80.0 CBR_PLATFORM ≠ rub_only 1.0 CBR_PLATFORM.
Proof.
  intros H. apply (f_equal (λ m, from_option d_rate 0%float (m !! "RUB"))) in H.
  unfold rub_only in H. rewrite !lookup_singleton_eq in H.
  by apply float_80_is_not_1.
Qed.

(** Updating with an empty dict changes nothing. *)
Lemma dict_update_empty {V} (d : gmap string V) : dict_update d ∅ = d.
Proof. by rewrite dict_update_union, (left_id_L ∅ (∪)). Qed.

(** C6, on the code. When the request fails (it raises, or the status is not
    a success) [fetch_cbr] returns the map holding only RUB at rate 1.0, and so
    do both fetches when the document does not parse; but
    [fetch_cbr_rates_sync] on a failed request returns, and caches, the map
    holding only RUB at rate 80.0, which is another map. *)
Theorem fixed_income_fallback_rates (wanted : list string) (dt : date)
    (e : Env) (w : World) :
  let date_key := parser.format_cbr_date dt in
  let url := CBR_URL_format date_key in
  (http_failed (http_cbr e CBR_URL) = true →
     fetch_cbr wanted e w =
       (Returned (rub_only 1.0 CBR_PLATFORM), w,
        [EHttpGet CBR_URL; EPrint "Ошибка ЦБ"])) ∧
  (∀ content,
     http_cbr e CBR_URL = HttpResponse true content →
     ET_fromstring content = None →
     fetch_cbr wanted e w =
       (Returned (rub_only 1.0 CBR_PLATFORM), w, [EHttpGet CBR_URL])) ∧
  (w_rates_cache w !! date_key = None →
   http_failed (http_cbr e url) = true →
     fetch_sync dt e w =
       (Returned (rub_only 80.0 CBR_PLATFORM),
        with_rates_cache w
          (<[date_key := rub_only 80.0 CBR_PLATFORM]> (w_rates_cache w)),
        [EHttpGet url; EPrint "Ошибка запроса ЦБ"])) ∧
  (∀ content,
     w_rates_cache w !! date_key = None →
     http_cbr e url = HttpResponse true content →
     ET_fromstring content = None →
     fetch_sync dt e w =
       (Returned (rub_only 1.0 CBR_PLATFORM),
        with_rates_cache w
          (<[date_key := rub_only 1.0 CBR_PLATFORM]> (w_rates_cache w)),
        [EHttpGet url])) ∧
  rub_only 80.0 CBR_PLATFORM ≠ rub_only 1.0 CBR_PLATFORM.
Proof.
  intros date_key url. repeat split.
  - intros Hfail. rewrite fetch_cbr_run.
    by destruct (http_cbr e CBR_URL) as [exc|[] content].
  - intros content Hresp Hparse. rewrite fetch_cbr_run, Hresp.
    unfold parser.parse_cbr_xml. rewrite Hparse. by rewrite dict_update_empty.
  - intros Hmiss Hfail. rewrite fetch_sync_run. fold date_key url.
    rewrite Hmiss. by destruct (http_cbr e url) as [exc|[] content].
  - intros content Hmiss Hresp Hparse. rewrite fetch_sync_run.
    fold date_key url. rewrite Hmiss, Hresp.
    unfold parser.parse_cbr_xml. rewrite Hparse. by rewrite dict_update_empty.
  - apply rub_only_80_is_not_1.
Qed.

(** C10. In the cached fetch, for every date: whenever a first call returns
    a map, that map is cached under the date and a second call, whatever the
    network would answer, returns exactly that map and performs no request;
    in particular when the cache has no entry and the request of the first
    call fails, the fallback map (RUB at rate 80.0) is what the first call
    returns and what every later call for that date returns, with no retry. *)
Theorem fetch_cbr_rates_sync_cached (dt : date) (e1 e2 : Env) (w : World) :
  let date_key := parser.format_cbr_date dt in
  let url := CBR_URL_format date_key in
  (∀ rates w1 t1,
     fetch_sync dt e1 w = (Returned rates, w1, t1) →
     w_rates_cache w1 !! date_key = Some rates ∧
     fetch_sync dt e2 w1 = (Returned rates, w1, [])) ∧
  (w_rates_cache w !! date_key = None →
   http_failed (http_cbr e1 url) = true →
   ∃ w1,
     fetch_sync dt e1 w =
       (Returned (rub_only 80.0 CBR_PLATFORM), w1,
        [EHttpGet url; EPrint "Ошибка запроса ЦБ"]) ∧
     fetch_sync dt e2 w1 = (Returned (rub_only 80.0 CBR_PLATFORM), w1, [])).
Proof.
  intros date_key url.
  assert (Hhit : ∀ rates w1,
    w_rates_cache w1 !! date_key = Some rates →
    fetch_sync dt e2 w1 = (Returned rates, w1, [])).
  { intros rates w1 Hc. rewrite fetch_sync_run. fold date_key. by rewrite Hc. }
  split.
  - intros rates w1 t1. rewrite fetch_sync_run. fold date_key url.
    destruct (w_rates_cache w !! date_key) as [cached|] eqn:Hc.
    + intros [= <- <- <-]. auto.
    + assert (Hstored : ∀ r : gmap string RateData,
        w_rates_cache (with_rates_cache w (<[date_key := r]> (w_rates_cache w)))
          !! date_key = Some r).
      { intros r. cbn. apply lookup_insert_eq. }
      destruct (http_cbr e1 url) as [exc|[] content].
      * intros [= <- <- <-]. auto.
      * destruct (parser.parse_cbr_xml _ _ _ _ content CURRENCY); [|done].
        intros [= <- <- <-]. auto.
      * intros [= <- <- <-]. auto.
  - intros Hmiss Hfail. eexists. split.
    + rewrite fetch_sync_run. fold date_key url. rewrite Hmiss.
      by destruct (http_cbr e1 url) as [exc|[] content].
    + apply Hhit. cbn. apply lookup_insert_eq.
Qed.

End FetchFixedIncome.

(** ** The feed parser *)

Section ParseCbr.

Variable ET_fromstring : string → option Element.
Variable py_float : string → option float.
Variable py_int : string → option Z.
Variable CBR_PLATFORM : string.

Local Abbreviation parse_valute :=
  (parser.parse_valute py_float py_int CBR_PLATFORM).
Local Abbreviation parse_cbr_xml :=
  (parser.parse_cbr_xml ET_fromstring py_float py_int CBR_PLATFORM).

(** A document that does not parse yields the empty map. *)
Lemma parse_cbr_xml_malformed xml allowed_codes :
  ET_fromstring xml = None → parse_cbr_xml xml allowed_codes = Returned ∅.
Proof. intros H. unfold parser.parse_cbr_xml. by rewrite H. Qed.

(** An entry whose [Value] node has no children is read from [VunitRate]:
    the [or] of the two [find] results skips an element without children. *)
Lemma parse_valute_leaf_value allowed_codes result valute code_node code_text
    value_node :
  find "CharCode" valute = Some code_node →
  text code_node = Some code_text →
  code_text ≠ "" →
  strip code_text ∈ allowed_codes →
  find "Value" valute = Some value_node →
  children value_node = [] →
  parse_valute allowed_codes result valute =
  match
    parser.read_value_amount py_float py_int (find "VunitRate" valute)
      (find "amount" valute)
  with
  | None => Returned result
  | Some (value, amount) =>
      match float_div_int value amount with
      | Raised exc => Raised exc
      | Returned r =>
          Returned
            (<[strip code_text :=
                 mkRateData r (Some amount) (Some CBR_PLATFORM)]> result)
      end
  end.
Proof.
  intros Hcode Htext Hne Hallowed Hvalue Hleaf.
  unfold parser.parse_valute. rewrite Hcode, Htext.
  destruct code_text as [|c rest]; [done|].
  rewrite bool_decide_eq_true_2 by done.
  rewrite Hvalue. unfold py_or, element_truth. by rewrite Hleaf.
Qed.

(** An allowed entry with a [Value] node and no [VunitRate] node is skipped. *)
Lemma parse_valute_leaf_value_only allowed_codes result valute code_node
    code_text value_node :
  find "CharCode" valute = Some code_node →
  text code_node = Some code_text →
  code_text ≠ "" →
  strip code_text ∈ allowed_codes →
  find "Value" valute = Some value_node →
  children value_node = [] →
  find "VunitRate" valute = None →
  parse_valute allowed_codes result valute = Returned result.
Proof.
  intros Hcode Htext Hne Hallowed Hvalue Hleaf Hunit.
  rewrite (parse_valute_leaf_value _ _ _ _ _ _ Hcode Htext Hne Hallowed Hvalue
             Hleaf).
  by rewrite Hunit.
Qed.

(** An allowed entry with a unit amount of zero raises. *)
Lemma parse_valute_zero_amount allowed_codes result valute code_node code_text
    value_node unit_node unit_text value amount_node amount_text :
  find "CharCode" valute = Some code_node →
  text code_node = Some code_text →
  code_text ≠ "" →
  strip code_text ∈ allowed_codes →
  find "Value" valute = Some value_node →
  children value_node = [] →
  find "VunitRate" valute = Some unit_node →
  text unit_node = Some unit_text →
  py_float (replace_comma unit_text) = Some value →
  find "amount" valute = Some amount_node →
  text amount_node = Some amount_text →
  py_int amount_text = Some 0%Z →
  parse_valute allowed_codes result valute = Raised "ZeroDivisionError".
Proof.
  intros Hcode Htext Hne Hallowed Hvalue Hleaf Hunit Hut Hf Ham Hat Hi.
  rewrite (parse_valute_leaf_value _ _ _ _ _ _ Hcode Htext Hne Hallowed Hvalue
             Hleaf).
  rewrite Hunit, Ham. unfold parser.read_value_amount. cbn.
  rewrite Hut. cbn. rewrite Hf. cbn. rewrite Hat. cbn. rewrite Hi. cbn.
  reflexivity.
Qed.

End ParseCbr.

(** ** The statements at concrete inputs *)

(** C9, on the code, at three documents with one allowed entry. An entry
    with a value node under the first accepted tag only is skipped: the
    result is empty. An entry with both value nodes takes its price from the
    second one. An entry with a unit amount of zero makes [parse_cbr_xml]
    raise. *)
Theorem parse_cbr_xml_failing_inputs :
  let parse xml :=
    parser.parse_cbr_xml sample_fromstring sample_float sample_int "CBR" xml
      ["USD"] in
  parse xml_value_only = Returned ∅ ∧
  parse xml_both_values =
    Returned {[ "USD" := mkRateData 45.25 (Some 1%Z) (Some "CBR") ]} ∧
  parse xml_zero_amount = Raised "ZeroDivisionError".
Proof. cbv zeta. repeat split; vm_compute; reflexivity. Qed.





(** C7 fails as stated: the replication upsert stores the crypto flag of the
    received item for a code outside the configured crypto codes. *)
Lemma replication_stores_received_crypto_flag :
  let w := sample_world 90.0 in
  let run := nats_sub._upsert_item (sample_payload 91.5 1 true) sample_env w in
  bool_decide ("USD" ∈ ["BTC"]) = false ∧
  crypto_currency <$> rows (w_db run.1.2) !! "USD" = Some true.
Proof. cbv zeta. split; vm_compute; reflexivity. Qed.

(** The sample table is keyed. *)
Lemma sample_rows_keyed : rows_keyed (w_db (sample_world 90.0)).
Proof.
  intros code item. cbn. intros [<- <-]%lookup_singleton_Some. reflexivity.
Defined.

(** C7 at a concrete input. *)
Lemma crypto_flag_by_upsert_path_witness :
  ∃ w' tr,
    task_poller.upsert_item ["BTC"] "USD"
      (mkRateData 91.5 (Some 1%Z) (Some "CBR")) sample_env (sample_world 90.0) =
      (Returned tt, w', tr) ∧
    ((w' = sample_world 90.0 ∧ tr = []) ∨
     ∃ stored event_type,
       rows (w_db w') !! "USD" = Some stored ∧
       currency stored = "USD" ∧
       crypto_currency stored = bool_decide ("USD" ∈ ["BTC"]) ∧
       Forall (eq (event_of_item event_type stored)) (emitted_events tr)).
Proof.
  exact (proj1 (crypto_flag_by_upsert_path ["BTC"] "USD"
                  (mkRateData 91.5 (Some 1%Z) (Some "CBR"))
                  (sample_payload 91.5 1 true) sample_env (sample_world 90.0)
                  sample_rows_keyed)).
Defined.


(** C5 at the subscribers 1 and 2, where the send to 2 raises: 2 is
    unregistered and the next broadcast reaches 1 only. *)
Lemma broadcast_fan_out_then_prune_witness :
  ∃ w',
    (ws_handler.broadcast (event_of_item "updated" (sample_item 90.0))
       sample_env (sample_world 90.0)).1.2 = w' ∧
    active (w_manager w') = {[ 1%positive ]} ∧
    recipients
      (ws_handler.broadcast (event_of_item "created" (sample_item 90.0))
         sample_env w').2 = [1%positive].
Proof.
  destruct (proj2 (broadcast_fan_out_then_prune
                     (event_of_item "updated" (sample_item 90.0)) sample_env
                     (sample_world 90.0)))
    as (w' & Hrun & Hact & _ & _ & _ & Hnext).
  { vm_compute. discriminate. }
  exists w'. split; [by rewrite Hrun|]. split.
  - rewrite Hact. vm_compute. reflexivity.
  - rewrite Hnext. vm_compute. reflexivity.
Defined.

(** C6 at a concrete input: a failed request in the cached fetch. *)
Lemma fixed_income_fallback_rates_witness :
  (parser.fetch_cbr_rates_sync sample_fromstring sample_float sample_int
     sample_url_format ["USD"] "CBR" sample_date sample_env
     (sample_world 90.0)).1.1 =
  Returned (rub_only 80.0 "CBR").
Proof.
  rewrite (proj1 (proj2 (proj2 (fixed_income_fallback_rates sample_fromstring
             sample_float sample_int "https://cbr.example/daily"
             sample_url_format ["USD"] "CBR" ["USD"] sample_date sample_env
             (sample_world 90.0)))) eq_refl eq_refl).
  reflexivity.
Defined.

(** C10 at a concrete input: a failed first fetch, then a second call. *)
Lemma fetch_cbr_rates_sync_cached_witness :
  ∃ w1,
    parser.fetch_cbr_rates_sync sample_fromstring sample_float sample_int
      sample_url_format ["USD"] "CBR" sample_date sample_env
      (sample_world 90.0) =
      (Returned (rub_only 80.0 "CBR"), w1,
       [EHttpGet "https://cbr.example/daily?date_req=03/11/2026";
        EPrint "Ошибка запроса ЦБ"]) ∧
    parser.fetch_cbr_rates_sync sample_fromstring sample_float sample_int
      sample_url_format ["USD"] "CBR" sample_date env_bus_down w1 =
      (Returned (rub_only 80.0 "CBR"), w1, []).
Proof.
  exact (proj2 (fetch_cbr_rates_sync_cached sample_fromstring sample_float
                  sample_int sample_url_format ["USD"] "CBR" sample_date
                  sample_env env_bus_down (sample_world 90.0))
           eq_refl eq_refl).
Defined.

(** Two poll cycles while both feeds are down: the first creates the base
    unit and hands its Created event to the push subscriber and to the bus;
    the second writes nothing and emits nothing. *)
Example poll_cycle_twice :
  let first := sample_cycle sample_env fresh_world in
  let second := sample_cycle sample_env first.1.2 in
  let created :=
    event_of_item "created"
      (mkItemModel (Some 1%Z) "RUB" 1.0 1%Z "CBR" false 200%Z) in
  first.1.1 = Returned tt ∧
  emitted_events first.2 = [created; created; created] ∧
  second = (Returned tt, first.1.2,
            [EHttpGet "https://cbr.example/daily"; EPrint "Ошибка ЦБ";
             EHttpGet "https://binance.example/price?symbol=BTCUSDT";
             EPrint "Binance"]).
Proof. cbv zeta. repeat split; vm_compute; reflexivity. Qed.

(** ** One upsert of the sync cycle *)



(** Replacing table, manager and publisher by themselves changes nothing. *)
Lemma world_eta w :
  with_publisher (with_manager (with_db w (w_db w)) (w_manager w))
    (w_publisher w) = w.
Proof. by destruct w. Qed.

(** The poller's [upsert_item] always returns, and its table is [upsert_db]. *)
Lemma poller_upsert_db CRYPTO_CODES code data e w :
  ∃ mgr p tr,
    task_poller.upsert_item CRYPTO_CODES code data e w =
    (Returned tt,
     with_publisher
       (with_manager
          (with_db w (upsert_db CRYPTO_CODES (utcnow e) code data (w_db w)))
          mgr) p,
     tr).
Proof.
  unfold upsert_db.
  destruct (rows (w_db w) !! code) as [item|] eqn:Hrow.
  - destruct (rates_close (rate item) (d_rate data)) eqn:Hclose.
    + exists (w_manager w), (w_publisher w), [].
      rewrite world_eta.
      by apply (upsert_close_noop CRYPTO_CODES code data item e w).
    + destruct (poller_upsert_existing CRYPTO_CODES code data item e w Hrow
                  Hclose) as (mgr & p & tr & -> & _).
      by eexists _, _, _.
  - destruct (poller_upsert_new CRYPTO_CODES code data e w Hrow)
      as (mgr & p & tr & -> & _).
    by eexists _, _, _.
Qed.

(** The parser's [upsert_item] always returns, leaves the publisher alone,
    and its table is [upsert_db]. *)
Lemma parser_upsert_db CRYPTO_CODES code data e w :
  ∃ mgr tr,
    parser.upsert_item CRYPTO_CODES code data e w =
    (Returned tt,
     with_manager
       (with_db w (upsert_db CRYPTO_CODES (utcnow e) code data (w_db w))) mgr,
     tr).
Proof.
  unfold upsert_db.
  destruct (rows (w_db w) !! code) as [item|] eqn:Hrow.
  - destruct (rates_close (rate item) (d_rate data)) eqn:Hclose.
    + exists (w_manager w), [].
      replace (with_manager (with_db w (w_db w)) (w_manager w)) with w
        by (by destruct w).
      by apply (upsert_close_noop CRYPTO_CODES code data item e w).
    + destruct (parser_upsert_existing CRYPTO_CODES code data item e w Hrow
                  Hclose) as (mgr & tr & -> & _).
      by eexists _, _.
  - destruct (parser_upsert_new CRYPTO_CODES code data e w Hrow)
      as (mgr & tr & -> & _).
    by eexists _, _.
Qed.

(** An upsert keeps the table keyed. *)
Lemma upsert_db_keyed CRYPTO_CODES now code data d :
  rows_keyed d → rows_keyed (upsert_db CRYPTO_CODES now code data d).
Proof.
  intros Hk. unfold upsert_db.
  destruct (rows d !! code) as [item|] eqn:Hrow.
  - destruct (rates_close _ _); [done|].
    intros c it. cbn. rewrite (Hk _ _ Hrow).
    intros [[<- <-]|[_ Hc]]%lookup_insert_Some; [by apply Hk in Hrow|by apply Hk].
  - intros c it. cbn.
    intros [[<- <-]|[_ Hc]]%lookup_insert_Some; [done|by apply Hk].
Qed.

(** An upsert leaves the rows of other codes alone. *)
Lemma upsert_db_frame CRYPTO_CODES now code data d other :
  rows_keyed d → other ≠ code →
  rows (upsert_db CRYPTO_CODES now code data d) !! other = rows d !! other.
Proof.
  intros Hk Hne. unfold upsert_db.
  destruct (rows d !! code) as [item|] eqn:Hrow.
  - destruct (rates_close _ _); [done|].
    cbn. rewrite (Hk _ _ Hrow). by apply lookup_insert_ne.
  - cbn. by apply lookup_insert_ne.
Qed.


(** An upsert of a synced code changes nothing. *)
Lemma upsert_db_noop CRYPTO_CODES now code data d :
  row_synced code data d → upsert_db CRYPTO_CODES now code data d = d.
Proof.
  intros (item & Hrow & Hclose). unfold upsert_db. by rewrite Hrow, Hclose.
Qed.

(** X1. On a table keyed by code, both implementations of [upsert_item] keep
    the table keyed, leave the row of every other code exactly as it was, and
    leave the rates cache alone, whichever branch they take. *)
Theorem upsert_item_touches_one_row (CRYPTO_CODES : list string)
    (code : string) (data : RateData) (e : Env) (w : World) :
  rows_keyed (w_db w) →
  let after_poller := (task_poller.upsert_item CRYPTO_CODES code data e w).1.2 in
  let after_parser := (parser.upsert_item CRYPTO_CODES code data e w).1.2 in
  rows_keyed (w_db after_poller) ∧
  rows_keyed (w_db after_parser) ∧
  (∀ other, other ≠ code →
     rows (w_db after_poller) !! other = rows (w_db w) !! other ∧
     rows (w_db after_parser) !! other = rows (w_db w) !! other) ∧
  w_rates_cache after_poller = w_rates_cache w ∧
  w_rates_cache after_parser = w_rates_cache w.
Proof.
  intros Hk.
  destruct (poller_upsert_db CRYPTO_CODES code data e w) as (m1 & p1 & t1 & ->).
  destruct (parser_upsert_db CRYPTO_CODES code data e w) as (m2 & t2 & ->).
  cbn. repeat split; try by apply upsert_db_keyed.
  all: by apply upsert_db_frame.
Qed.



(** X1 at a concrete input: the creation of a row for a second code. *)
Lemma upsert_item_touches_one_row_witness :
  rows_keyed
    (w_db (task_poller.upsert_item ["BTC"] "EUR"
             (mkRateData 99.0 None None) sample_env (sample_world 90.0)).1.2).
Proof.
  exact (proj1 (upsert_item_touches_one_row ["BTC"] "EUR"
                  (mkRateData 99.0 None None) sample_env (sample_world 90.0)
                  sample_rows_keyed)).
Defined.

(** ** The crypto fetch *)

Section FetchCrypto.

Variable py_float : string → option float.
Variable json_price : string → option string.
Variable BINANCE_URL : string.
Variable CRYPTO_PLATFORM : string.

Local Abbreviation price := (binance_price py_float json_price BINANCE_URL).

(** The [try] block of one symbol: the request is made, and a missing price
    is logged and skipped. *)
Lemma binance_attempt_run (price_of : string → M float) sym log e w :
  (∀ content e w,
     price_of content e w =
       match json_price content with
       | None => (Raised "KeyError", w, [])
       | Some s =>
           match py_float s with
           | None => (Raised "ValueError", w, [])
           | Some p => (Returned p, w, [])
           end
       end) →
  try_except
    (content <- http_get http_binance (binance_url BINANCE_URL sym) ;;
     p <- price_of content ;;
     ret (Some p))
    (λ exc, print log ;;; ret None) e w =
  (Returned (price e sym), w,
   EHttpGet (binance_url BINANCE_URL sym) ::
   match price e sym with
   | Some _ => []
   | None => [EPrint log]
   end).
Proof.
  intros Hprice. unfold try_except, binance_price. unfold bind at 1.
  rewrite http_get_run.
  destruct (http_binance e (binance_url BINANCE_URL sym)) as [exc|[] content];
    try reflexivity.
  unfold bind at 1. rewrite Hprice.
  destruct (json_price content) as [s|]; [|reflexivity].
  destruct (py_float s); reflexivity.
Qed.

(** [float(resp.json()[price])] in the poller. *)
Lemma poller_price_of_run content e w :
  task_poller.price_of py_float json_price content e w =
  match json_price content with
  | None => (Raised "KeyError", w, [])
  | Some s =>
      match py_float s with
      | None => (Raised "ValueError", w, [])
      | Some p => (Returned p, w, [])
      end
  end.
Proof.
  unfold task_poller.price_of.
  destruct (json_price content) as [s|]; [|reflexivity].
  destruct (py_float s); reflexivity.
Qed.

(** [float(resp.json()[price])] in the parser. *)
Lemma parser_price_of_run content e w :
  parser.price_of py_float json_price content e w =
  match json_price content with
  | None => (Raised "KeyError", w, [])
  | Some s =>
      match py_float s with
      | None => (Raised "ValueError", w, [])
      | Some p => (Returned p, w, [])
      end
  end.
Proof.
  unfold parser.price_of.
  destruct (json_price content) as [s|]; [|reflexivity].
  destruct (py_float s); reflexivity.
Qed.

(** [fetch_binance] returns [binance_rates] and leaves the world alone. *)
Lemma fetch_binance_run symbols usd_rub acc e w :
  task_poller.fetch_binance py_float json_price BINANCE_URL CRYPTO_PLATFORM
    symbols usd_rub acc e w =
  (Returned
     (binance_rates (price e) (task_poller.crypto_platform CRYPTO_PLATFORM)
        usd_rub symbols acc),
   w, binance_trace (price e) BINANCE_URL "Binance" symbols).
Proof.
  revert acc. induction symbols as [|sym rest IH]; intros acc; [reflexivity|].
  cbn [task_poller.fetch_binance]. unfold bind at 1.
  fold (binance_url BINANCE_URL sym).
  rewrite (binance_attempt_run _ sym "Binance" e w poller_price_of_run).
  cbn [binance_rates foldl binance_trace flat_map].
  destruct (binance_price py_float json_price BINANCE_URL e sym) as [p|];
    rewrite IH; reflexivity.
Qed.

(** [fetch_crypto_rates_sync] returns [binance_rates] and leaves the world
    alone. *)
Lemma fetch_crypto_rates_sync_run symbols usd_rub acc e w :
  parser.fetch_crypto_rates_sync py_float json_price BINANCE_URL
    CRYPTO_PLATFORM symbols usd_rub acc e w =
  (Returned
     (binance_rates (price e) (parser.crypto_platform CRYPTO_PLATFORM)
        usd_rub symbols acc),
   w, binance_trace (price e) BINANCE_URL "Ошибка Binance" symbols).
Proof.
  revert acc. induction symbols as [|sym rest IH]; intros acc; [reflexivity|].
  cbn [parser.fetch_crypto_rates_sync]. unfold bind at 1.
  fold (binance_url BINANCE_URL sym).
  rewrite (binance_attempt_run _ sym "Ошибка Binance" e w parser_price_of_run).
  cbn [binance_rates foldl binance_trace flat_map].
  destruct (binance_price py_float json_price BINANCE_URL e sym) as [p|];
    rewrite IH; reflexivity.
Qed.

(** One step of the loop over the symbols. *)
Lemma binance_rates_cons (quote : string → option float) platform usd_rub
    s rest acc :
  binance_rates quote platform usd_rub (s :: rest) acc =
  binance_rates quote platform usd_rub rest
    match quote s with
    | Some p => <[s := binance_entry platform usd_rub p]> acc
    | None => acc
    end.
Proof. reflexivity. Qed.

(** A key of the crypto map: the entry of its price for a fetched symbol that
    yields one, the value of the accumulator otherwise. *)
Lemma binance_rates_lookup (quote : string → option float) platform usd_rub
    symbols acc sym :
  binance_rates quote platform usd_rub symbols acc !! sym =
  if decide (sym ∈ symbols)
  then
    match quote sym with
    | Some p => Some (binance_entry platform usd_rub p)
    | None => acc !! sym
    end
  else acc !! sym.
Proof.
  revert acc. induction symbols as [|s rest IH]; intros acc.
  - cbn. by rewrite decide_False by apply not_elem_of_nil.
  - rewrite binance_rates_cons, IH. destruct (decide (sym = s)) as [->|Hne].
    + rewrite (decide_True (P := s ∈ s :: rest)) by (apply elem_of_cons; by left).
      destruct (quote s) as [p|]; [|by destruct (decide _)].
      rewrite lookup_insert_eq. by destruct (decide _).
    + assert (Hacc : ∀ q : option float,
        match q with
        | Some p => <[s := binance_entry platform usd_rub p]> acc
        | None => acc
        end !! sym = acc !! sym).
      { intros [p|]; [by apply lookup_insert_ne|done]. }
      rewrite Hacc.
      destruct (decide (sym ∈ rest)) as [Hin|Hnin].
      * by rewrite decide_True by (apply elem_of_cons; by right).
      * rewrite decide_False; [done|].
        by intros [?|?]%elem_of_cons.
Qed.

(** A crypto fetch requests the URL of every symbol, in order. *)
Lemma requests_binance_trace (quote : string → option float) log symbols :
  requests (binance_trace quote BINANCE_URL log symbols) =
  map (binance_url BINANCE_URL) symbols.
Proof.
  induction symbols as [|s rest IH]; [done|].
  cbn. destruct (quote s); cbn; f_equal; exact IH.
Qed.

(** X3. [fetch_binance] and [fetch_crypto_rates_sync] never raise and leave
    the world alone. They request the URL of every symbol once, in order,
    whatever the earlier requests gave. The result has an entry exactly for
    the symbols whose request succeeded with a price that [float] accepts;
    that entry holds the price times the given quote, amount 1 and the
    crypto platform. *)
Theorem crypto_fetch_is_partial (symbols : list string) (usd_rub : float)
    (e : Env) (w : World) :
  (∃ result tr,
     task_poller.fetch_binance py_float json_price BINANCE_URL CRYPTO_PLATFORM
       symbols usd_rub ∅ e w = (Returned result, w, tr) ∧
     requests tr = map (binance_url BINANCE_URL) symbols ∧
     ∀ sym,
       result !! sym =
       if decide (sym ∈ symbols)
       then binance_entry (task_poller.crypto_platform CRYPTO_PLATFORM) usd_rub
              <$> price e sym
       else None) ∧
  (∃ result tr,
     parser.fetch_crypto_rates_sync py_float json_price BINANCE_URL
       CRYPTO_PLATFORM symbols usd_rub ∅ e w = (Returned result, w, tr) ∧
     requests tr = map (binance_url BINANCE_URL) symbols ∧
     ∀ sym,
       result !! sym =
       if decide (sym ∈ symbols)
       then binance_entry (parser.crypto_platform CRYPTO_PLATFORM) usd_rub
              <$> price e sym
       else None).
Proof.
  split.
  - eexists _, _. split; [apply fetch_binance_run|].
    split; [apply requests_binance_trace|].
    intros sym. rewrite binance_rates_lookup, lookup_empty.
    destruct (decide _); [|done]. by destruct (price e sym).
  - eexists _, _. split; [apply fetch_crypto_rates_sync_run|].
    split; [apply requests_binance_trace|].
    intros sym. rewrite binance_rates_lookup, lookup_empty.
    destruct (decide _); [|done]. by destruct (price e sym).
Qed.

End FetchCrypto.

(** ** A whole cycle of the poller *)





(** The requests of a concatenated trace. *)
Lemma requests_app t1 t2 : requests (t1 ++ t2) = requests t1 ++ requests t2.
Proof.
  induction t1 as [|ev t1 IH]; [done|]. destruct ev; cbn; by rewrite ?IH.
Qed.

(** Storage, push and log effects request nothing. *)
Lemma requests_local tr :
  Forall (λ ev, replication_effect ev = true) tr → requests tr = [].
Proof.
  induction 1 as [|ev tr Hev _ IH]; [done|]. by destruct ev.
Qed.

(** [emit_event] requests nothing. *)
Lemma emit_event_requests event_type item e w :
  requests (task_poller.emit_event event_type item e w).2 = [].
Proof.
  destruct (emit_event_parts event_type item e w) as (rest & -> & Hrest).
  cbn [snd]. rewrite !requests_app.
  destruct (broadcast_trace (event_of_item event_type item) e w)
    as (mgr & tr1 & -> & Hlocal & _).
  cbn [fst snd]. rewrite (requests_local tr1 Hlocal).
  assert (requests
            (nats_pub.publish "items.updates" (event_of_item event_type item) e
               (with_manager w mgr)).2 = []) as ->.
  { destruct (nats_pub.client_connected (w_publisher (with_manager w mgr)))
      eqn:Hc.
    - rewrite publish_connected by done. unfold send_attempt.
      by destruct (nats_publish_ok e), (nats_flush_ok e).
    - rewrite (publish_disconnected _ _ _ _ Hc). unfold send_attempt.
      by destruct (nats_connect_ok e), (nats_publish_ok e), (nats_flush_ok e). }
  by destruct Hrest as [-> | ->].
Qed.

(** The poller's [upsert_item] requests nothing. *)
Lemma poller_upsert_requests CRYPTO_CODES code data e w :
  requests (task_poller.upsert_item CRYPTO_CODES code data e w).2 = [].
Proof.
  destruct (rows (w_db w) !! code) as [item|] eqn:Hrow.
  - destruct (rates_close (rate item) (d_rate data)) eqn:Hclose.
    + by rewrite (proj1 (upsert_close_noop CRYPTO_CODES code data item e w
                           Hrow Hclose)).
    + rewrite (poller_upsert_existing_run CRYPTO_CODES code data item e w
                 Hrow Hclose). cbn. apply emit_event_requests.
  - unfold task_poller.upsert_item.
    unfold bind at 1. cbv [session.select_by_currency bind get ret].
    rewrite Hrow. cbv [ask]. rewrite add_commit_refresh_run.
    match goal with
    | |- context [task_poller.emit_event ?ty ?it e ?w1] =>
        pose proof (emit_event_requests ty it e w1) as Hreq;
        destruct (task_poller.emit_event ty it e w1) as [[r w2] t2]
    end.
    exact Hreq.
Qed.

(** Neither does the upsert loop of [run_once]. *)
Lemma poller_loop_requests CRYPTO_CODES entries e w :
  requests
    (for_each entries
       (λ kv, task_poller.upsert_item CRYPTO_CODES kv.1 kv.2) e w).2 = [].
Proof.
  revert w. induction entries as [|kv rest IH]; intros w; [done|].
  cbn [for_each]. unfold bind.
  pose proof (poller_upsert_requests CRYPTO_CODES kv.1 kv.2 e w) as Hhead.
  destruct (poller_upsert_db CRYPTO_CODES kv.1 kv.2 e w)
    as (m1 & p1 & t1 & Hrun).
  rewrite Hrun in Hhead |- *. cbn [snd] in Hhead.
  match goal with
  | |- context [for_each rest _ e ?w1] =>
      pose proof (IH w1) as Htail;
      destruct (for_each rest
                  (λ kv, task_poller.upsert_item CRYPTO_CODES kv.1 kv.2) e w1)
        as [[r w2] t2]
  end.
  cbn [snd] in *. by rewrite requests_app, Hhead, Htail.
Qed.


(** The upsert loop of [poll_loop] always returns; its table is [sync_db]. *)
Lemma parser_loop_run CRYPTO_CODES entries e w :
  ∃ mgr tr,
    for_each entries (λ kv, parser.upsert_item CRYPTO_CODES kv.1 kv.2) e w =
    (Returned tt,
     with_manager
       (with_db w (sync_db CRYPTO_CODES (utcnow e) entries (w_db w))) mgr,
     tr).
Proof.
  revert w. induction entries as [|kv rest IH]; intros w.
  - exists (w_manager w), []. cbn. by destruct w.
  - cbn [for_each]. unfold bind.
    destruct (parser_upsert_db CRYPTO_CODES kv.1 kv.2 e w) as (m1 & t1 & ->).
    match goal with
    | |- context [for_each rest _ e ?w1] =>
        destruct (IH w1) as (m2 & t2 & ->)
    end.
    by eexists _, _.
Qed.



Section PollCycle.

Variable ET_fromstring : string → option Element.
Variable py_float : string → option float.
Variable py_int : string → option Z.
Variable json_price : string → option string.
Variable CBR_URL : string.
Variable BINANCE_URL : string.
Variable CURRENCY : list string.
Variable CBR_PLATFORM : string.
Variable CRYPTO_CODES : list string.
Variable CRYPTO_PLATFORM : string.

Local Abbreviation run_once :=
  (task_poller.run_once ET_fromstring py_float py_int json_price CBR_URL
     BINANCE_URL CURRENCY CBR_PLATFORM CRYPTO_CODES CRYPTO_PLATFORM).
Local Abbreviation fixed_rates :=
  (cbr_rates ET_fromstring py_float py_int CBR_URL CBR_PLATFORM CURRENCY).
Local Abbreviation merged_rates :=
  (cycle_rates ET_fromstring py_float py_int json_price CBR_URL BINANCE_URL
     CURRENCY CBR_PLATFORM CRYPTO_CODES CRYPTO_PLATFORM).
Local Abbreviation crypto_trace e :=
  (binance_trace (binance_price py_float json_price BINANCE_URL e) BINANCE_URL
     "Binance" CRYPTO_CODES).

(** [fetch_cbr] leaves the world alone; its outcome is [cbr_rates] and its
    trace [cbr_trace]. *)
Lemma fetch_cbr_outcome wanted e w :
  task_poller.fetch_cbr ET_fromstring py_float py_int CBR_URL CBR_PLATFORM
    wanted e w =
  (cbr_rates ET_fromstring py_float py_int CBR_URL CBR_PLATFORM wanted e, w,
   cbr_trace CBR_URL e).
Proof.
  rewrite fetch_cbr_run. unfold cbr_rates, cbr_trace.
  destruct (http_cbr e CBR_URL) as [exc|[] content]; try reflexivity.
  destruct (parser.parse_cbr_xml _ _ _ _ content wanted); reflexivity.
Qed.

(** When the fetch raises, [run_once] raises before any upsert. *)
Lemma run_once_raises e w exc :
  merged_rates e = Raised exc →
  run_once e w = (Raised exc, w, cbr_trace CBR_URL e).
Proof.
  unfold cycle_rates, task_poller.run_once. unfold bind at 1.
  rewrite fetch_cbr_outcome.
  destruct (cbr_rates _ _ _ _ _ _ e); [done|by intros [= ->]].
Qed.

(** When the fetch returns, [run_once] is the two fetches followed by the
    upsert loop over the merged map. *)
Lemma run_once_returns e w rates :
  merged_rates e = Returned rates →
  run_once e w =
  match
    for_each (map_to_list rates)
      (λ kv, task_poller.upsert_item CRYPTO_CODES kv.1 kv.2) e w
  with
  | (r, w', tr) => (r, w', cbr_trace CBR_URL e ++ crypto_trace e ++ tr)
  end.
Proof.
  unfold cycle_rates, task_poller.run_once. unfold bind at 1.
  rewrite fetch_cbr_outcome.
  destruct (cbr_rates _ _ _ _ _ _ e) as [fixed|]; [|done].
  intros [= <-]. unfold bind at 1. rewrite fetch_binance_run.
  destruct (for_each _ _ e w) as [[r w'] tr]. by rewrite app_assoc.
Qed.




(** The merged map is not built exactly when the feed answers with a document
    on which [parse_cbr_xml] raises. *)
Lemma cycle_rates_raised e exc :
  merged_rates e = Raised exc ↔
  ∃ content,
    http_cbr e CBR_URL = HttpResponse true content ∧
    parser.parse_cbr_xml ET_fromstring py_float py_int CBR_PLATFORM content
      CURRENCY = Raised exc.
Proof.
  unfold cycle_rates, cbr_rates.
  destruct (http_cbr e CBR_URL) as [x|[] content] eqn:Hhttp.
  - split; [done|]. by intros (c & [=] & _).
  - destruct (parser.parse_cbr_xml _ _ _ _ content CURRENCY)
      as [parsed|x] eqn:Hparse.
    + split; [done|]. intros (c & [= <-] & Hp). congruence.
    + split.
      * intros [= ->]. by exists content.
      * intros (c & [= <-] & Hp). congruence.
  - split; [done|]. by intros (c & [=] & _).
Qed.

(** X8. When the fixed-income feed answers with a document on which
    [parse_cbr_xml] raises, a cycle of [Poller.run_once] raises that
    exception right after the one request: no crypto request, no upsert, and
    the world unchanged. In every other case the cycle gets past the fetch:
    its requests are the one to the fixed-income feed followed by one per
    crypto code, in order, and nothing else. *)
Theorem poll_cycle_fails_as_a_whole (e : Env) (w : World) :
  (∀ content exc,
     http_cbr e CBR_URL = HttpResponse true content →
     parser.parse_cbr_xml ET_fromstring py_float py_int CBR_PLATFORM content
       CURRENCY = Raised exc →
     run_once e w = (Raised exc, w, [EHttpGet CBR_URL])) ∧
  ((∀ content exc,
      http_cbr e CBR_URL = HttpResponse true content →
      parser.parse_cbr_xml ET_fromstring py_float py_int CBR_PLATFORM content
        CURRENCY ≠ Raised exc) →
   requests (run_once e w).2 =
     CBR_URL :: map (binance_url BINANCE_URL) CRYPTO_CODES).
Proof.
  split.
  - intros content exc Hhttp Hparse.
    rewrite (run_once_raises e w exc).
    + unfold cbr_trace. by rewrite Hhttp.
    + apply cycle_rates_raised. by exists content.
  - intros Hparse.
    destruct (merged_rates e) as [rates|exc] eqn:Hrates.
    + rewrite (run_once_returns e w rates Hrates).
      pose proof (poller_loop_requests CRYPTO_CODES (map_to_list rates) e w)
        as Hloop.
      destruct (for_each _ _ e w) as [[r w'] tr]. cbn [snd] in *.
      rewrite !requests_app, Hloop, app_nil_r, requests_binance_trace.
      unfold cbr_trace. by destruct (http_failed _).
    + apply cycle_rates_raised in Hrates as (content & Hhttp & Hraised).
      by destruct (Hparse content exc Hhttp).
Qed.



End PollCycle.

(** ** Redelivery on the replication path *)

(** [_upsert_item] on an item with a code always returns, commits once, emits
    nothing, and its table is [replication_db]. *)
Lemma replication_upsert_db item code e w :
  p_currency item = Some code →
  ∃ tr,
    nats_sub._upsert_item item e w =
      (Returned tt, with_db w (replication_db item code (utcnow e) (w_db w)), tr) ∧
    length (commits tr) = 1 ∧
    emitted_events tr = [].
Proof.
  intros Hcode. unfold replication_db.
  destruct (rows (w_db w) !! code) as [model|] eqn:Hrow.
  - rewrite (replication_upsert_existing item code model e w Hcode Hrow).
    by eexists.
  - rewrite (replication_upsert_new item code e w Hcode Hrow). by eexists.
Qed.

(** The assignments of the update branch are idempotent. *)
Lemma replicated_item_twice item model :
  replicated_item item (replicated_item item model) = replicated_item item model.
Proof.
  unfold replicated_item. cbn.
  by destruct (p_rate item), (p_amount item), (p_platform item),
    (p_crypto_currency item).
Qed.

(** The assignments of the update branch leave the row created from the same
    item alone. *)
Lemma replicated_item_created item code new_id now :
  replicated_item item (created_from_payload code item new_id now) =
  created_from_payload code item new_id now.
Proof.
  unfold replicated_item, created_from_payload. cbn.
  by destruct (p_rate item), (p_amount item), (p_platform item),
    (p_crypto_currency item).
Qed.

(** On a keyed table a second replication upsert of the same item changes
    nothing more. *)
Lemma replication_db_stable item code now1 now2 d :
  rows_keyed d →
  replication_db item code now2 (replication_db item code now1 d) =
  replication_db item code now1 d.
Proof.
  intros Hk. unfold replication_db at 2 3.
  destruct (rows d !! code) as [model|] eqn:Hrow.
  - unfold replication_db, store_row. cbn. rewrite (Hk _ _ Hrow).
    rewrite lookup_insert_eq. cbn. rewrite (Hk _ _ Hrow).
    by rewrite replicated_item_twice, insert_insert_eq.
  - unfold replication_db, store_row. cbn. rewrite lookup_insert_eq. cbn.
    by rewrite replicated_item_created, insert_insert_eq.
Qed.

(** A replication upsert keeps the table keyed. *)
Lemma replication_db_keyed item code now d :
  rows_keyed d → rows_keyed (replication_db item code now d).
Proof.
  intros Hk. unfold replication_db.
  destruct (rows d !! code) as [model|] eqn:Hrow.
  - intros c it. cbn. rewrite (Hk _ _ Hrow).
    intros [[<- <-]|[_ Hc]]%lookup_insert_Some; [by apply Hk in Hrow|by apply Hk].
  - intros c it. cbn.
    intros [[<- <-]|[_ Hc]]%lookup_insert_Some; [done|by apply Hk].
Qed.

(** A replication upsert leaves the rows of other codes alone. *)
Lemma replication_db_frame item code now d other :
  rows_keyed d → other ≠ code →
  rows (replication_db item code now d) !! other = rows d !! other.
Proof.
  intros Hk Hne. unfold replication_db.
  destruct (rows d !! code) as [model|] eqn:Hrow.
  - cbn. rewrite (Hk _ _ Hrow). by apply lookup_insert_ne.
  - cbn. by apply lookup_insert_ne.
Qed.

(** X13. On a table keyed by code, delivering the same item twice to
    [NatsSubscriber._upsert_item] leaves, after the second delivery, exactly
    the world the first one left. The upsert keeps the table keyed and leaves
    the rows of other codes, the live connections, the publisher and the
    rates cache as they were. *)
Theorem replication_redelivery_is_stable (item : ItemPayload) (code : string)
    (e1 e2 : Env) (w : World) :
  rows_keyed (w_db w) →
  p_currency item = Some code →
  let once := (nats_sub._upsert_item item e1 w).1.2 in
  (nats_sub._upsert_item item e2 once).1.2 = once ∧
  rows_keyed (w_db once) ∧
  (∀ other, other ≠ code →
     rows (w_db once) !! other = rows (w_db w) !! other) ∧
  w_manager once = w_manager w ∧
  w_publisher once = w_publisher w ∧
  w_rates_cache once = w_rates_cache w.
Proof.
  intros Hk Hcode.
  destruct (replication_upsert_db item code e1 w Hcode) as (t1 & -> & _).
  cbn [fst snd].
  destruct (replication_upsert_db item code e2
              (with_db w (replication_db item code (utcnow e1) (w_db w))) Hcode)
    as (t2 & -> & _).
  cbn [fst snd]. repeat split.
  - cbn. unfold with_db. cbn. by rewrite replication_db_stable.
  - by apply replication_db_keyed.
  - intros other Hne. by apply replication_db_frame.
Qed.

(** X13 at a concrete input: an update delivered twice. *)
Lemma replication_redelivery_is_stable_witness :
  (nats_sub._upsert_item (sample_payload 91.5 10 true) env_bus_down
     (nats_sub._upsert_item (sample_payload 91.5 10 true) sample_env
        (sample_world 90.0)).1.2).1.2 =
  (nats_sub._upsert_item (sample_payload 91.5 10 true) sample_env
     (sample_world 90.0)).1.2.
Proof.
  exact (proj1 (replication_redelivery_is_stable (sample_payload 91.5 10 true)
                  "USD" sample_env env_bus_down (sample_world 90.0)
                  sample_rows_keyed eq_refl)).
Defined.



(** X15. What [_on_message] does with a message it cannot use. A message
    that does not decode leaves one log line and nothing else. A message that
    decodes to a value that is not a dict makes the handler raise
    [AttributeError], with no effect. A dict without an item, or whose item
    has no currency or an empty one, is dropped with no effect at all.
    Conversely, a run that commits, hands on an event or changes the world
    had a message that decoded to a dict whose item has a currency that is
    not empty. *)
Theorem replication_discards_unusable_messages
    (json_loads : string → option Json) (msg_data : string)
    (e : Env) (w : World) :
  let run := nats_sub._on_message json_loads msg_data e w in
  (json_loads msg_data = None →
     run = (Returned tt, w, [EPrint "Ошибка парсинга NATS сообщения"])) ∧
  (json_loads msg_data = Some JNotObject →
     run = (Raised "AttributeError", w, [])) ∧
  (∀ data,
     json_loads msg_data = Some (JObject data) →
     (∀ item, ev_item data = Some item →
        p_currency item = None ∨ p_currency item = Some "") →
     run = (Returned tt, w, [])) ∧
  (commits run.2 ≠ [] ∨ emitted_events run.2 ≠ [] ∨ run.1.2 ≠ w →
     ∃ data item code,
       json_loads msg_data = Some (JObject data) ∧
       ev_item data = Some item ∧
       p_currency item = Some code ∧
       code ≠ "").
Proof.
  cbv zeta. unfold nats_sub._on_message.
  destruct (json_loads msg_data) as [[|data]|].
  - split; [done|]. split; [done|]. split; [done|].
    cbn. intros [?|[?|?]]; done.
  - split; [done|]. split; [done|].
    destruct (ev_item data) as [item|] eqn:Hitem.
    + destruct (p_currency item) as [code|] eqn:Hcode.
      * destruct code as [|c rest].
        -- split; [done|]. cbn. intros [?|[?|?]]; done.
        -- split.
           ++ intros data' [= <-] Hbad.
              destruct (Hbad item Hitem) as [?|?]; [congruence|].
              rewrite Hcode in *. discriminate.
           ++ intros _. exists data, item, (String c rest).
              by repeat split.
      * split; [done|]. cbn. intros [?|[?|?]]; done.
    + split; [done|]. cbn. intros [?|[?|?]]; done.
  - split; [done|]. split; [done|]. split; [done|].
    cbn. intros [?|[?|?]]; done.
Qed.

(** ** The registry of push subscribers *)

(** [connect] adds the connection, sets the event and prints one line. *)
Lemma connect_run ws e w :
  ws_handler.connect ws e w =
  (Returned tt,
   with_manager w
     (mkConnectionManager ({[ ws ]} ∪ active (w_manager w)) true),
   [EPrint "WebSocket подключен"]).
Proof. reflexivity. Qed.

(** [disconnect] keeps the event in line with the live set. *)
Lemma manager_discard_consistent m ws :
  manager_consistent m → manager_consistent (manager_discard m ws).
Proof.
  unfold manager_consistent, manager_discard. cbn. intros [H1 H2].
  destruct (decide (active m ∖ {[ws]} = ∅)) as [He|Hne]; [done|].
  split; [done|]. intros _. apply H2. intros Hempty. apply Hne.
  rewrite Hempty. apply set_eq. intros x.
  rewrite elem_of_difference. split; [by intros [[]%elem_of_empty _]|].
  by intros []%elem_of_empty.
Qed.

(** So does a sequence of them. *)
Lemma foldl_discard_consistent bad m :
  manager_consistent m → manager_consistent (foldl manager_discard m bad).
Proof.
  revert m. induction bad as [|ws rest IH]; intros m Hm; [done|].
  apply IH. by apply manager_discard_consistent.
Qed.

(** X16. The [_has_clients] event is set exactly when the live set is not
    empty: [connect] (of a connection whose handshake is accepted)
    establishes this, and [disconnect] and [broadcast] preserve it. *)
Theorem has_clients_flag_tracks_live_set (ws : WebSocket) (message : Event)
    (e : Env) (w : World) :
  manager_consistent (w_manager (ws_handler.connect ws e w).1.2) ∧
  (manager_consistent (w_manager w) →
     manager_consistent (w_manager (ws_handler.disconnect ws e w).1.2) ∧
     manager_consistent (w_manager (ws_handler.broadcast message e w).1.2)).
Proof.
  split.
  - rewrite connect_run. cbn. unfold manager_consistent. cbn.
    split; [|done]. intros _ Hempty.
    assert (ws ∈ ({[ws]} ∪ active (w_manager w) : gset WebSocket)) as Hin.
    { apply elem_of_union. left. by apply elem_of_singleton. }
    rewrite Hempty in Hin. by apply elem_of_empty in Hin.
  - intros Hm. split.
    + rewrite disconnect_run. cbn. by apply manager_discard_consistent.
    + destruct (decide (active (w_manager w) = ∅)) as [He|Hne].
      * by rewrite broadcast_idle.
      * rewrite broadcast_run by done. cbn.
        by apply foldl_discard_consistent.
Qed.

(** X17. After [connect] the connection is in the live set and connecting it
    again changes nothing; after [disconnect] it is not, and disconnecting
    it again changes nothing; for a connection that was not registered,
    [disconnect] leaves the live set as it was and [connect] followed by
    [disconnect] gives back the live set of before; the membership of every
    other connection is unaffected by both. *)
Theorem register_unregister_round_trip (ws : WebSocket) (e : Env) (w : World) :
  let registered := (ws_handler.connect ws e w).1.2 in
  let removed := (ws_handler.disconnect ws e w).1.2 in
  ws ∈ active (w_manager registered) ∧
  w_manager (ws_handler.connect ws e registered).1.2 = w_manager registered ∧
  (ws ∉ active (w_manager removed)) ∧
  w_manager (ws_handler.disconnect ws e removed).1.2 = w_manager removed ∧
  (ws ∉ active (w_manager w) →
     active (w_manager removed) = active (w_manager w) ∧
     (active (w_manager (ws_handler.disconnect ws e registered).1.2) =
        active (w_manager w))) ∧
  (∀ other, other ≠ ws →
     (other ∈ active (w_manager registered) ↔ other ∈ active (w_manager w)) ∧
     (other ∈ active (w_manager removed) ↔ other ∈ active (w_manager w))).
Proof.
  cbv zeta. rewrite !connect_run, !disconnect_run. cbn.
  assert (Hreg : ws ∈ ({[ws]} ∪ active (w_manager w) : gset WebSocket)).
  { apply elem_of_union. left. by apply elem_of_singleton. }
  assert (Hrem : ws ∉ (active (w_manager w) ∖ {[ws]} : gset WebSocket)).
  { rewrite elem_of_difference, elem_of_singleton. tauto. }
  split; [done|]. split.
  { f_equal. apply set_eq. intros x. rewrite !elem_of_union. tauto. }
  split; [done|]. split.
  { unfold manager_discard. cbn.
    assert (active (w_manager w) ∖ {[ws]} ∖ {[ws]} =
            (active (w_manager w) ∖ {[ws]} : gset WebSocket)) as ->.
    { apply set_eq. intros x. rewrite !elem_of_difference. tauto. }
    by destruct (decide _). }
  split.
  { intros Hnin. split.
    - apply set_eq. intros x. rewrite elem_of_difference, elem_of_singleton.
      split; [tauto|]. intros Hx. split; [done|]. by intros ->.
    - apply set_eq. intros x.
      rewrite elem_of_difference, elem_of_union, !elem_of_singleton.
      split; [tauto|]. intros Hx. split; [tauto|]. by intros ->. }
  intros other Hne.
  rewrite elem_of_union, elem_of_difference, !elem_of_singleton. tauto.
Qed.

(** X16 at a concrete input: a broadcast that drops a dead connection. *)
Lemma has_clients_flag_tracks_live_set_witness :
  manager_consistent
    (w_manager (ws_handler.broadcast (event_of_item "updated" (sample_item 90.0))
                  sample_env (sample_world 90.0)).1.2).
Proof.
  apply (has_clients_flag_tracks_live_set 1%positive
           (event_of_item "updated" (sample_item 90.0)) sample_env
           (sample_world 90.0)).
  unfold manager_consistent. cbn. split; [|done].
  intros _. vm_compute. discriminate.
Defined.

(** ** The life cycle of the publisher *)

(** [close] does nothing without a client; otherwise it drops the client and
    prints [close_log]. *)
Lemma close_run drain_ok close_ok e w :
  nats_pub.close drain_ok close_ok e w =
  match pub_client (w_publisher w) with
  | None => (Returned tt, w, [])
  | Some client =>
      (Returned tt, with_publisher w (mkNatsPublisher None),
       close_log client drain_ok close_ok)
  end.
Proof.
  unfold nats_pub.close, close_log. unfold bind at 1. unfold get at 1.
  cbv beta iota.
  destruct (pub_client (w_publisher w)) as [[connected]|]; [|reflexivity].
  cbv [bind try_except get put set_publisher print tell ret raise is_connected
       with_publisher].
  destruct connected, drain_ok, close_ok; reflexivity.
Qed.

(** X18. [NatsPublisher.close] never raises, whatever [drain] and [close] of
    the client do; it leaves the publisher without a client and the table
    and the live connections alone, and a second [close] does nothing at all.
    After a [connect] that returned, the client is connected and a second
    [connect] does nothing. A [publish] after [close] opens a new connection
    and publishes on it. *)
Theorem publisher_connect_close_idempotent (drain_ok close_ok : bool)
    (subject : string) (message : Event) (e e' : Env) (w : World) :
  let closed := (nats_pub.close drain_ok close_ok e w).1.2 in
  (nats_pub.close drain_ok close_ok e w).1.1 = Returned tt ∧
  pub_client (w_publisher closed) = None ∧
  w_db closed = w_db w ∧
  w_manager closed = w_manager w ∧
  (∀ d c, nats_pub.close d c e' closed = (Returned tt, closed, [])) ∧
  (∀ w1 tr,
     nats_pub.connect e w = (Returned tt, w1, tr) →
     nats_pub.client_connected (w_publisher w1) = true ∧
     nats_pub.connect e' w1 = (Returned tt, w1, [])) ∧
  (nats_connect_ok e' = true →
   nats_publish_ok e' = true →
   nats_flush_ok e' = true →
   nats_pub.publish subject message e' closed =
     (Returned tt, with_publisher closed connected_publisher,
      [ENatsConnect; EPrint "NATS publisher подключен";
       ENatsPublish subject message; ENatsFlush])).
Proof.
  cbv zeta. rewrite close_run.
  assert (Hconn : ∀ w1,
    nats_pub.client_connected (w_publisher w1) = true →
    nats_pub.connect e' w1 = (Returned tt, w1, [])).
  { intros w1 Hc. unfold nats_pub.connect. unfold bind at 1. unfold get at 1.
    cbv beta iota. by rewrite Hc. }
  assert (Hconnect : ∀ w1 tr,
    nats_pub.connect e w = (Returned tt, w1, tr) →
    nats_pub.client_connected (w_publisher w1) = true ∧
    nats_pub.connect e' w1 = (Returned tt, w1, [])).
  { intros w1 tr.
    destruct (nats_pub.client_connected (w_publisher w)) eqn:Hc.
    - unfold nats_pub.connect. unfold bind at 1. unfold get at 1.
      cbv beta iota. rewrite Hc. intros [= <- <-]. auto.
    - rewrite (connect_disconnected e w Hc).
      destruct (nats_connect_ok e); [|done].
      intros [= <- <-]. split; [done|]. by apply Hconn. }
  assert (Hpub : ∀ w0,
    pub_client (w_publisher w0) = None →
    nats_connect_ok e' = true → nats_publish_ok e' = true →
    nats_flush_ok e' = true →
    nats_pub.publish subject message e' w0 =
      (Returned tt, with_publisher w0 connected_publisher,
       [ENatsConnect; EPrint "NATS publisher подключен";
        ENatsPublish subject message; ENatsFlush])).
  { intros w0 Hnone Hc Hp Hf.
    rewrite publish_disconnected
      by (unfold nats_pub.client_connected; by rewrite Hnone).
    unfold send_attempt. by rewrite Hc, Hp, Hf. }
  destruct (pub_client (w_publisher w)) as [client|] eqn:Hclient; cbn [fst snd].
  - split; [done|]. split; [done|]. split; [done|]. split; [done|].
    split; [intros d c; by rewrite close_run|].
    split; [exact Hconnect|]. by apply Hpub.
  - split; [done|]. split; [done|]. split; [done|]. split; [done|].
    split; [intros d c; by rewrite close_run, Hclient|].
    split; [exact Hconnect|]. by apply Hpub.
Qed.

(** ** The shape of a parsed feed *)

(** A division that returns had a divisor other than zero. *)
Lemma float_div_int_returned value amount r :
  float_div_int value amount = Returned r → amount ≠ 0%Z.
Proof.
  unfold float_div_int, float_of_int.
  destruct (is_infinity _); [done|].
  destruct (amount =? 0)%Z eqn:Hz; [done|]. intros _.
  by apply Z.eqb_neq.
Qed.

(** A division raises [OverflowError] or [ZeroDivisionError] only. *)
Lemma float_div_int_raised value amount exc :
  float_div_int value amount = Raised exc →
  exc = "OverflowError" ∨ exc = "ZeroDivisionError".
Proof.
  unfold float_div_int, float_of_int.
  destruct (is_infinity _); [intros [= <-]; by left|].
  destruct (amount =? 0)%Z; [intros [= <-]; by right|done].
Qed.

Section ParseShape.

Variable ET_fromstring : string → option Element.
Variable py_float : string → option float.
Variable py_int : string → option Z.
Variable CBR_PLATFORM : string.

Local Abbreviation parse_valute :=
  (parser.parse_valute py_float py_int CBR_PLATFORM).
Local Abbreviation parse_valutes :=
  (parser.parse_valutes py_float py_int CBR_PLATFORM).
Local Abbreviation parse_cbr_xml :=
  (parser.parse_cbr_xml ET_fromstring py_float py_int CBR_PLATFORM).

(** One entry of the feed keeps the shape of the result, or raises one of
    the two arithmetic errors. *)
Lemma parse_valute_shape allowed_codes result valute :
  map_Forall (feed_entry allowed_codes CBR_PLATFORM) result →
  match parse_valute allowed_codes result valute with
  | Returned result' => map_Forall (feed_entry allowed_codes CBR_PLATFORM) result'
  | Raised exc => exc = "OverflowError" ∨ exc = "ZeroDivisionError"
  end.
Proof.
  intros Hres. unfold parser.parse_valute.
  destruct (find "CharCode" valute) as [code_node|]; [|done].
  destruct (text code_node) as [[|c rest]|]; [done| |done].
  destruct (bool_decide (strip (String c rest) ∈ allowed_codes)) eqn:Hin;
    [|done].
  apply bool_decide_eq_true in Hin.
  destruct (parser.read_value_amount _ _ _ _) as [[value amount]|]; [|done].
  destruct (float_div_int value amount) as [r|exc] eqn:Hdiv.
  - apply map_Forall_insert_2; [|done].
    split; [done|]. split; [done|]. exists amount. split; [done|].
    by apply (float_div_int_returned value amount r).
  - by apply (float_div_int_raised value amount).
Qed.

(** So does the loop over the entries. *)
Lemma parse_valutes_shape allowed_codes valutes result :
  map_Forall (feed_entry allowed_codes CBR_PLATFORM) result →
  match parse_valutes allowed_codes valutes result with
  | Returned result' => map_Forall (feed_entry allowed_codes CBR_PLATFORM) result'
  | Raised exc => exc = "OverflowError" ∨ exc = "ZeroDivisionError"
  end.
Proof.
  revert result. induction valutes as [|valute rest IH]; intros result Hres.
  - done.
  - cbn [parser.parse_valutes].
    pose proof (parse_valute_shape allowed_codes result valute Hres) as Hstep.
    destruct (parser.parse_valute _ _ _ allowed_codes result valute); [|done].
    by apply IH.
Qed.

(** Every entry of the result of [parse_cbr_xml] is a [feed_entry]. *)
Lemma parse_cbr_xml_shape (xml : string) (allowed_codes : list string) :
  match parse_cbr_xml xml allowed_codes with
  | Returned result => map_Forall (feed_entry allowed_codes CBR_PLATFORM) result
  | Raised exc => exc = "OverflowError" ∨ exc = "ZeroDivisionError"
  end.
Proof.
  unfold parser.parse_cbr_xml.
  destruct (ET_fromstring xml) as [root|].
  - apply parse_valutes_shape, map_Forall_empty.
  - apply map_Forall_empty.
Qed.

(** X9. For every document and every tuple of allowed codes: when
    [parse_cbr_xml] returns, every key of the result is an allowed code and
    its entry carries the fixed-income platform and a unit amount that is
    present and not zero; when it raises, the exception is [OverflowError] or
    [ZeroDivisionError], the two errors of the division by the unit amount. *)
Theorem parse_cbr_xml_result_shape (xml : string) (allowed_codes : list string) :
  match parse_cbr_xml xml allowed_codes with
  | Returned result =>
      ∀ code data,
        result !! code = Some data →
        code ∈ allowed_codes ∧
        d_platform data = Some CBR_PLATFORM ∧
        ∃ amount, d_amount data = Some amount ∧ amount ≠ 0%Z
  | Raised exc => exc = "OverflowError" ∨ exc = "ZeroDivisionError"
  end.
Proof.
  pose proof (parse_cbr_xml_shape xml allowed_codes) as Hshape.
  destruct (parser.parse_cbr_xml _ _ _ _ xml allowed_codes); [|done].
  intros code data Hlook. by apply (Hshape code data).
Qed.

End ParseShape.

Section FixedIncomeKeys.

Variable ET_fromstring : string → option Element.
Variable py_float : string → option float.
Variable py_int : string → option Z.
Variable CBR_URL : string.
Variable CBR_PLATFORM : string.

(** X4. Whenever [fetch_cbr] returns a map, it has left the world alone and
    made exactly one request, to the feed URL; the map has an entry for RUB;
    every key is RUB or one of the wanted codes; and when RUB is not a wanted
    code its entry is rate 1.0, amount 1 on the fixed-income platform. *)
Theorem fetch_cbr_always_has_base_unit (wanted : list string) (e : Env)
    (w w' : World) (rates : gmap string RateData) (tr : list effect) :
  task_poller.fetch_cbr ET_fromstring py_float py_int CBR_URL CBR_PLATFORM
    wanted e w = (Returned rates, w', tr) →
  w' = w ∧
  requests tr = [CBR_URL] ∧
  is_Some (rates !! "RUB") ∧
  (∀ code, is_Some (rates !! code) → code = "RUB" ∨ code ∈ wanted) ∧
  ("RUB" ∉ wanted →
     rates !! "RUB" = Some (mkRateData 1.0 (Some 1%Z) (Some CBR_PLATFORM))).
Proof.
  rewrite fetch_cbr_outcome. unfold cbr_rates, cbr_trace.
  assert (Hbase : ∀ code : string,
    is_Some (rub_only 1.0 CBR_PLATFORM !! code) → code = "RUB").
  { intros code [x Hx]. unfold rub_only in Hx.
    by apply lookup_singleton_Some in Hx as [<- _]. }
  assert (Hrub : rub_only 1.0 CBR_PLATFORM !! "RUB" =
                 Some (mkRateData 1.0 (Some 1%Z) (Some CBR_PLATFORM))).
  { unfold rub_only. apply lookup_singleton_eq. }
  assert (Hfallback : ∀ t,
    requests (EHttpGet CBR_URL :: t) = CBR_URL :: requests t) by done.
  assert (Hfail : ∀ t : list effect,
    w = w ∧ requests (EHttpGet CBR_URL :: t) = CBR_URL :: requests t ∧
    is_Some (rub_only 1.0 CBR_PLATFORM !! "RUB") ∧
    (∀ code, is_Some (rub_only 1.0 CBR_PLATFORM !! code) →
       code = "RUB" ∨ code ∈ wanted) ∧
    ("RUB" ∉ wanted →
       rub_only 1.0 CBR_PLATFORM !! "RUB" =
       Some (mkRateData 1.0 (Some 1%Z) (Some CBR_PLATFORM)))).
  { intros t. split; [done|]. split; [done|]. split; [by rewrite Hrub|].
    split; [|done]. intros code Hc. left. by apply Hbase. }
  destruct (http_cbr e CBR_URL) as [exc|[] content] eqn:Hhttp; cbn [http_failed negb].
  - intros [= <- <- <-]. apply (Hfail [EPrint "Ошибка ЦБ"]).
  - pose proof (parse_cbr_xml_shape ET_fromstring py_float py_int CBR_PLATFORM
                  content wanted) as Hshape.
    destruct (parser.parse_cbr_xml _ _ _ _ content wanted) as [parsed|exc];
      [|done].
    intros [= <- <- <-]. split; [done|]. split; [done|]. split; [|split].
    + rewrite dict_update_lookup. destruct (parsed !! "RUB"); [done|].
      by rewrite Hrub.
    + intros code. rewrite dict_update_lookup.
      destruct (parsed !! code) as [data|] eqn:Hp.
      * intros _. right. by destruct (Hshape code data Hp).
      * intros Hc. left. by apply Hbase.
    + intros Hnin. rewrite dict_update_lookup.
      destruct (parsed !! "RUB") as [data|] eqn:Hp; [|done].
      by destruct (Hshape "RUB" data Hp).
  - intros [= <- <- <-]. apply (Hfail [EPrint "Ошибка ЦБ"]).
Qed.

End FixedIncomeKeys.

(** X4 at the sample feed: the base unit is at rate 1.0. *)
Lemma fetch_cbr_always_has_base_unit_witness :
  sample_fixed_rates !! "RUB" = Some (mkRateData 1.0 (Some 1%Z) (Some "CBR")).
Proof.
  assert (Hrun :
    task_poller.fetch_cbr sample_fromstring sample_float sample_int
      "https://cbr.example/daily" "CBR" ["USD"] (env_feed_up 100) fresh_world =
    (Returned sample_fixed_rates, fresh_world,
     [EHttpGet "https://cbr.example/daily"])).
  { vm_compute. reflexivity. }
  assert (Hnin : "RUB" ∉ ["USD"]).
  { intros Hin. apply elem_of_cons in Hin as [Hin|Hin]; [discriminate|by apply elem_of_nil in Hin]. }
  exact (proj2 (proj2 (proj2 (proj2
           (fetch_cbr_always_has_base_unit sample_fromstring sample_float
              sample_int "https://cbr.example/daily" "CBR" ["USD"]
              (env_feed_up 100) fresh_world fresh_world sample_fixed_rates
              [EHttpGet "https://cbr.example/daily"] Hrun)))) Hnin).
Defined.

(** ** The cache key and the parser loop *)

(** A decimal digit determines its value. *)
Lemma digit_inj (a b : Z) : digit a = digit b → (a mod 10 = b mod 10)%Z.
Proof.
  unfold digit. intros H.
  apply (f_equal nat_of_ascii) in H.
  pose proof (Z.mod_pos_bound a 10 eq_refl) as Ha.
  pose proof (Z.mod_pos_bound b 10 eq_refl) as Hb.
  rewrite !nat_ascii_embedding in H by lia. lia.
Qed.

(** Two digits determine a number below 100. *)
Lemma two_digits_inj (a b : Z) :
  (0 ≤ a < 100)%Z → (0 ≤ b < 100)%Z → two_digits a = two_digits b → a = b.
Proof.
  intros Ha Hb. unfold two_digits.
  intros [= H1%digit_inj H2%digit_inj].
  Z.to_euclidean_division_equations. lia.
Qed.

(** Four digits determine a number below 10000. *)
Lemma four_digits_inj (a b : Z) :
  (0 ≤ a < 10000)%Z → (0 ≤ b < 10000)%Z → four_digits a = four_digits b → a = b.
Proof.
  intros Ha Hb. unfold four_digits, two_digits.
  intros [= H1%digit_inj H2%digit_inj H3%digit_inj H4%digit_inj].
  Z.to_euclidean_division_equations. lia.
Qed.

(** Distinct dates have distinct cache keys. *)
Lemma format_cbr_date_inj (d1 d2 : date) :
  valid_date d1 → valid_date d2 →
  parser.format_cbr_date d1 = parser.format_cbr_date d2 → d1 = d2.
Proof.
  intros (Hd1 & Hm1 & Hy1) (Hd2 & Hm2 & Hy2).
  unfold parser.format_cbr_date.
  change (two_digits ?d +:+ "/" +:+ two_digits ?m +:+ "/" +:+ four_digits ?y)
    with (String (digit (d / 10)) (String (digit d)
            (String "/" (String (digit (m / 10)) (String (digit m)
               (String "/" (four_digits y))))))).
  intros [= Hd10 Hd Hm10 Hm Hy1000 Hy100 Hy10 Hy1'].
  assert (day d1 = day d2) as Hday.
  { apply two_digits_inj; [lia|lia|]. unfold two_digits. by rewrite Hd10, Hd. }
  assert (month d1 = month d2) as Hmonth.
  { apply two_digits_inj; [lia|lia|]. unfold two_digits. by rewrite Hm10, Hm. }
  assert (year d1 = year d2) as Hyear.
  { apply four_digits_inj; [lia|lia|]. unfold four_digits, two_digits.
    by rewrite Hy1000, Hy100, Hy10, Hy1'. }
  destruct d1, d2. cbn in *. by subst.
Qed.


Section ParserCycle.

Variable ET_fromstring : string → option Element.
Variable py_float : string → option float.
Variable py_int : string → option Z.
Variable json_price : string → option string.
Variable CBR_URL_format : string → string.
Variable BINANCE_URL : string.
Variable CURRENCY : list string.
Variable CBR_PLATFORM : string.
Variable CRYPTO_CODES : list string.
Variable CRYPTO_PLATFORM : string.

Local Abbreviation poll_once :=
  (parser.poll_once ET_fromstring py_float py_int json_price CBR_URL_format
     BINANCE_URL CURRENCY CBR_PLATFORM CRYPTO_CODES CRYPTO_PLATFORM).
Local Abbreviation fetch_sync :=
  (parser.fetch_cbr_rates_sync ET_fromstring py_float py_int CBR_URL_format
     CURRENCY CBR_PLATFORM).
Local Abbreviation price := (binance_price py_float json_price BINANCE_URL).
Local Abbreviation merged cbr e :=
  (parser.all_rates cbr
     (binance_rates (price e) (parser.crypto_platform CRYPTO_PLATFORM)
        (parser.usd_rate_of cbr) CRYPTO_CODES ∅)).
Local Abbreviation crypto_log e :=
  (binance_trace (price e) BINANCE_URL "Ошибка Binance" CRYPTO_CODES).

(** When [fetch_cbr_rates_sync] returns a map, the map is cached under the
    date; the table, the manager, the publisher and the other cache entries
    are as before. *)
Lemma fetch_sync_returned dt e w cbr wc tc :
  fetch_sync dt e w = (Returned cbr, wc, tc) →
  w_rates_cache wc !! parser.format_cbr_date dt = Some cbr ∧
  w_db wc = w_db w ∧
  w_manager wc = w_manager w ∧
  w_publisher wc = w_publisher w ∧
  ∀ key, key ≠ parser.format_cbr_date dt →
    w_rates_cache wc !! key = w_rates_cache w !! key.
Proof.
  rewrite fetch_sync_run. cbv zeta.
  destruct (w_rates_cache w !! parser.format_cbr_date dt) as [cached|] eqn:Hc.
  - intros [= <- <- <-]. auto.
  - assert (Hstore : ∀ r : gmap string RateData,
      let wc' := with_rates_cache w
                   (<[parser.format_cbr_date dt := r]> (w_rates_cache w)) in
      w_rates_cache wc' !! parser.format_cbr_date dt = Some r ∧
      w_db wc' = w_db w ∧ w_manager wc' = w_manager w ∧
      w_publisher wc' = w_publisher w ∧
      ∀ key, key ≠ parser.format_cbr_date dt →
        w_rates_cache wc' !! key = w_rates_cache w !! key).
    { intros r. cbn. split; [apply lookup_insert_eq|]. repeat split.
      intros key Hne. by apply lookup_insert_ne. }
    destruct (http_cbr e _) as [exc|[] content].
    + intros [= <- <- <-]. apply Hstore.
    + destruct (parser.parse_cbr_xml _ _ _ _ content CURRENCY); [|done].
      intros [= <- <- <-]. apply Hstore.
    + intros [= <- <- <-]. apply Hstore.
Qed.

(** When the cached fetch returns, a turn of [poll_loop] is the two fetches
    followed by the upsert loop over the merged map. *)
Lemma poll_once_run today e w cbr wc tc :
  fetch_sync today e w = (Returned cbr, wc, tc) →
  ∃ mgr tr,
    poll_once today e w =
    (Returned tt,
     with_manager
       (with_db wc
          (sync_db CRYPTO_CODES (utcnow e) (map_to_list (merged cbr e))
             (w_db wc))) mgr,
     tc ++ crypto_log e ++ tr).
Proof.
  intros Hfetch. unfold parser.poll_once. unfold try_except at 1.
  unfold bind at 1. rewrite Hfetch. unfold bind at 1.
  rewrite fetch_crypto_rates_sync_run.
  destruct (parser_loop_run CRYPTO_CODES (map_to_list (merged cbr e)) e wc)
    as (mgr & tr & ->).
  exists mgr, tr. by rewrite app_assoc.
Qed.

(** X10. A turn of [poll_loop] always returns. When the day is not cached
    and the feed answers with a document on which [parse_cbr_xml] raises,
    the turn makes the one request, logs the error of the loop and leaves the
    world, the cache included, unchanged, so the next turn asks the feed
    again. *)
Theorem poll_once_never_raises (today : date) (e : Env) (w : World) :
  (∃ w' tr, poll_once today e w = (Returned tt, w', tr)) ∧
  (∀ content exc,
     w_rates_cache w !! parser.format_cbr_date today = None →
     http_cbr e (CBR_URL_format (parser.format_cbr_date today)) =
       HttpResponse true content →
     parser.parse_cbr_xml ET_fromstring py_float py_int CBR_PLATFORM content
       CURRENCY = Raised exc →
     poll_once today e w =
       (Returned tt, w,
        [EHttpGet (CBR_URL_format (parser.format_cbr_date today));
         EPrint "Ошибка poll_loop"])).
Proof.
  split.
  - destruct (fetch_sync today e w) as [[[cbr|exc] wc] tc] eqn:Hfetch.
    + destruct (poll_once_run today e w cbr wc tc Hfetch) as (mgr & tr & ->).
      by eexists _, _.
    + unfold parser.poll_once. unfold try_except at 1. unfold bind at 1.
      rewrite Hfetch. cbv [print tell]. by eexists _, _.
  - intros content exc Hmiss Hhttp Hparse.
    unfold parser.poll_once. unfold try_except at 1. unfold bind at 1.
    rewrite fetch_sync_run. cbv zeta. by rewrite Hmiss, Hhttp, Hparse.
Qed.


(** X12. For dates with a year of four digits, two dates have the same cache
    key exactly when they are the same date, and [fetch_cbr_rates_sync] for
    one date leaves the cache entry of every other date as it was. *)
Theorem rates_cache_is_per_day (d1 d2 : date) (e : Env) (w : World) :
  valid_date d1 → valid_date d2 →
  (parser.format_cbr_date d1 = parser.format_cbr_date d2 ↔ d1 = d2) ∧
  (d1 ≠ d2 →
     w_rates_cache (fetch_sync d1 e w).1.2 !! parser.format_cbr_date d2 =
     w_rates_cache w !! parser.format_cbr_date d2).
Proof.
  intros Hv1 Hv2. split.
  - split; [by apply format_cbr_date_inj|by intros ->].
  - intros Hne.
    assert (Hkey : parser.format_cbr_date d2 ≠ parser.format_cbr_date d1).
    { intros Heq. apply Hne. symmetry. by apply format_cbr_date_inj. }
    destruct (fetch_sync d1 e w) as [[[cbr|exc] wc] tc] eqn:Hfetch.
    + cbn. by apply (fetch_sync_returned d1 e w cbr wc tc Hfetch).
    + cbn. revert Hfetch. rewrite fetch_sync_run. cbv zeta.
      destruct (w_rates_cache w !! parser.format_cbr_date d1); [done|].
      destruct (http_cbr e _) as [x|[] content]; [done| |done].
      destruct (parser.parse_cbr_xml _ _ _ _ content CURRENCY); [done|].
      by intros [= _ <- _].
Qed.

End ParserCycle.

(** ** The cycles at a sample feed *)








(** X12 at two consecutive days. *)
Lemma rates_cache_is_per_day_witness :
  w_rates_cache
    (parser.fetch_cbr_rates_sync sample_fromstring sample_float sample_int
       sample_url_format ["USD"] "CBR" (mkdate 2026 11 3) sample_env
       fresh_world).1.2 !! parser.format_cbr_date (mkdate 2026 11 4) =
  w_rates_cache fresh_world !! parser.format_cbr_date (mkdate 2026 11 4).
Proof.
  assert (Hv1 : valid_date (mkdate 2026 11 3)).
  { unfold valid_date. cbn. lia. }
  assert (Hv2 : valid_date (mkdate 2026 11 4)).
  { unfold valid_date. cbn. lia. }
  assert (Hne : mkdate 2026 11 3 ≠ mkdate 2026 11 4) by (intros [=]).
  exact (proj2 (rates_cache_is_per_day sample_fromstring sample_float
                  sample_int sample_url_format ["USD"] "CBR"
                  (mkdate 2026 11 3) (mkdate 2026 11 4) sample_env
                  fresh_world Hv1 Hv2) Hne).
Defined.
